(** * django-dynamic-model: the dynamic attribute engine of [dynamicmodel/models.py]

    A shallow embedding of [DynamicModel], [DynamicForm], [DynamicSchema] and
    [DynamicSchemaField], followed by the properties of the attribute store,
    the schema table and the form projection.

    Python objects are values of [pyobj]; a raised exception is the [Raise]
    branch of [result].  A method that may rebind an attribute of [self]
    returns the updated instance next to its value.  Dictionaries are finite
    maps ([gmap]): Python compares dictionaries by content, and nothing in
    the module depends on the order of their keys. *)

From stdpp Require Import gmap strings list fin_maps.
From Stdlib Require Import ZArith Ascii.

Local Open Scope string_scope.
Local Open Scope Z_scope.

(** ** Rows of the schema tables *)

(** A row of [DynamicSchemaField] (models.py, lines 166-183).  [id] is [None]
    until the row has been inserted; [schema_id] is the column behind the
    foreign key [schema]. *)
Record DynamicSchemaField := mkField {
  id : option Z;
  schema_id : Z;
  name : string;
  verbose_name : option string;
  field_type : string;
  required : bool
}.

(** A [DynamicSchema] object (lines 135-141) together with the rows that
    [self.fields.all()] yields for it. *)
Record DynamicSchema := mkSchema {
  pk : Z;
  model : Z;
  type_value : string;
  fields_all : list DynamicSchemaField
}.

Global Instance DynamicSchemaField_eq_dec : EqDecision DynamicSchemaField.
Proof. solve_decision. Defined.

Global Instance DynamicSchema_eq_dec : EqDecision DynamicSchema.
Proof. solve_decision. Defined.

(** ** Python objects *)

(** The objects that reach the attribute store and the instance dictionary:
    [None], booleans, integers, strings, dictionaries with string keys, and
    schema objects (bound to [_schema]). *)
#[warnings="-register-all"]
Inductive pyobj :=
  | PNone
  | PBool (b : bool)
  | PInt (z : Z)
  | PStr (s : string)
  | PDict (d : gmap string pyobj)
  | PSchema (s : DynamicSchema).

Global Instance pyobj_eq_dec : EqDecision pyobj.
Proof.
  refine (fix go (a b : pyobj) {struct a} : Decision (a = b) :=
    let _ : EqDecision pyobj := @go in
    match a, b with
    | PNone, PNone => left _
    | PBool x, PBool y => cast_if (decide (x = y))
    | PInt x, PInt y => cast_if (decide (x = y))
    | PStr x, PStr y => cast_if (decide (x = y))
    | PDict x, PDict y => cast_if (decide (x = y))
    | PSchema x, PSchema y => cast_if (decide (x = y))
    | _, _ => right _
    end); abstract congruence.
Defined.

(** [bool(o)]: the truth value Python gives an object. *)
Definition truthy (o : pyobj) : bool :=
  match o with
  | PNone => false
  | PBool b => b
  | PInt z => negb (z =? 0)
  | PStr s => negb (bool_decide (s = ""))
  | PDict d => negb (bool_decide (d = ∅))
  | PSchema _ => true
  end.

(** [a == b].  Booleans are integers in Python ([True == 1]), so both sides
    are read as integers before they are compared. *)
Fixpoint py_int_view (o : pyobj) : pyobj :=
  match o with
  | PBool b => PInt (Z.b2z b)
  | PDict d => PDict (py_int_view <$> d)
  | _ => o
  end.

Definition py_eq (a b : pyobj) : bool :=
  bool_decide (py_int_view a = py_int_view b).

(** ** Exceptions *)

Inductive exn :=
  | TypeError
  | KeyError (key : string)
  | AttributeError (attr : string)
  | RuntimeError
  | ValueError (msg : string)
  | ValidationError (msg : string)
  | DoesNotExist
  | MultipleObjectsReturned
  | IntegrityError.

Inductive result (A : Type) :=
  | Ok (a : A)
  | Raise (e : exn).
Arguments Ok {A} a.
Arguments Raise {A} e.

Definition bind {A B} (r : result A) (k : A → result B) : result B :=
  match r with
  | Ok a => k a
  | Raise e => Raise e
  end.

Notation "'do' x <- r ; k" := (bind r (fun x => k))
  (at level 10, x binder, r at level 100, k at level 200).
Notation "'do' ' pat <- r ; k" := (bind r (fun x => match x with pat => k end))
  (at level 10, pat pattern, r at level 100, k at level 200).

(** A [for] loop whose body may raise: the state is threaded left to right
    and the first exception ends the loop. *)
Fixpoint for_each {A S} (body : S → A → result S) (s : S) (l : list A) : result S :=
  match l with
  | [] => Ok s
  | x :: l' => do s' <- body s x; for_each body s' l'
  end.

(** A list comprehension whose condition may raise. *)
Fixpoint comprehension_if {A} (cond : A → result bool) (l : list A) : result (list A) :=
  match l with
  | [] => Ok []
  | x :: l' =>
      do b <- cond x;
      do r <- comprehension_if cond l';
      Ok (if b then x :: r else r)
  end.

(** ** Container protocol *)

(** [needle in haystack] for two strings. *)
Fixpoint substring_of (needle haystack : string) : bool :=
  String.prefix needle haystack ||
  match haystack with
  | EmptyString => false
  | String _ rest => substring_of needle rest
  end.

(** [key in container] *)
Definition py_contains (key : string) (container : pyobj) : result bool :=
  match container with
  | PDict d => Ok (bool_decide (is_Some (d !! key)))
  | PStr s => Ok (substring_of key s)
  | _ => Raise TypeError
  end.

(** [container[key]] for a string key *)
Definition py_getitem (container : pyobj) (key : string) : result pyobj :=
  match container with
  | PDict d => match d !! key with Some v => Ok v | None => Raise (KeyError key) end
  | _ => Raise TypeError
  end.

(** [container[key] = value]; the updated container is returned. *)
Definition py_setitem (container : pyobj) (key : string) (value : pyobj) : result pyobj :=
  match container with
  | PDict d => Ok (PDict (<[key := value]> d))
  | _ => Raise TypeError
  end.

(** [del container[key]] *)
Definition py_delitem (container : pyobj) (key : string) : result pyobj :=
  match container with
  | PDict d => match d !! key with Some _ => Ok (PDict (delete key d)) | None => Raise (KeyError key) end
  | _ => Raise TypeError
  end.

(** [for key in container]: the keys of a dictionary, the characters of a
    string. *)
Fixpoint characters (s : string) : list string :=
  match s with
  | EmptyString => []
  | String c rest => String c EmptyString :: characters rest
  end.

Definition py_iter (container : pyobj) : result (list string) :=
  match container with
  | PDict d => Ok (map_to_list d).*1
  | PStr s => Ok (characters s)
  | _ => Raise TypeError
  end.

(** ** DynamicModel (lines 11-80) *)

(** An instance of a concrete subclass of [DynamicModel].
    - [own_fields]: the names of the model fields the subclass declares, its
      primary key included; with [extra_fields] (line 16) they make up
      [self._meta.fields].
    - [stored_schema]: the schema object that
      [DynamicSchema.objects.prefetch_related('fields').get_or_create(...)]
      (lines 56-59) returns for this instance.
    - [inst_dict]: the instance dictionary, holding [extra_fields], [_schema]
      and every ordinary attribute. *)
Record DynamicModel := mkModel {
  own_fields : list string;
  stored_schema : DynamicSchema;
  inst_dict : gmap string pyobj
}.

(** [[el.name for el in self._meta.fields]] *)
Definition meta_fields (self : DynamicModel) : list string :=
  "extra_fields" :: own_fields self.

(** [object.__setattr__]: bind the attribute in the instance dictionary.
    That is what the parent's assignment does for a name the class has no
    data descriptor for; a name with one (the [pk] property, a foreign key)
    is handled by its descriptor, which this embedding does not follow. *)
Definition object_setattr (self : DynamicModel) (attr_name : string) (value : pyobj) : DynamicModel :=
  mkModel (own_fields self) (stored_schema self) (<[attr_name := value]> (inst_dict self)).

(** [self.extra_fields].  While the attribute is unbound the lookup falls to
    [__getattr__], which reads [self.extra_fields] again: the recursion ends
    in a [RuntimeError]. *)
Definition get_extra_fields_attr (self : DynamicModel) : result pyobj :=
  match inst_dict self !! "extra_fields" with
  | Some o => Ok o
  | None => Raise RuntimeError
  end.

(** [DynamicModel.__getattr__] (lines 66-70), called when the instance
    dictionary has no entry for [attr_name].  The fall-back to the parent
    class finds nothing for an instance attribute and raises
    [AttributeError] (class attributes such as methods are not looked up
    through this embedding). *)
Definition __getattr__ (self : DynamicModel) (attr_name : string) : result pyobj :=
  do store <- get_extra_fields_attr self;
  do found <- py_contains attr_name store;
  if found then py_getitem store attr_name else Raise (AttributeError attr_name).

(** [getattr(self, attr_name)] for the name of an instance attribute: the
    instance dictionary first, then [__getattr__].  Python looks a class
    attribute (a method, the [pk] property) up on the class before it calls
    [__getattr__]; such names are not looked up through this embedding. *)
Definition getattr (self : DynamicModel) (attr_name : string) : result pyobj :=
  match inst_dict self !! attr_name with
  | Some o => Ok o
  | None => __getattr__ self attr_name
  end.

(** [hasattr(self, attr_name)]: false when the lookup raises. *)
Definition hasattr (self : DynamicModel) (attr_name : string) : bool :=
  match getattr self attr_name with
  | Ok _ => true
  | Raise _ => false
  end.

(** [self.get_extra_field_value(key)] (lines 36-40) *)
Definition get_extra_field_value (self : DynamicModel) (key : string) : result pyobj :=
  do store <- get_extra_fields_attr self;
  do found <- py_contains key store;
  if found then py_getitem store key else Ok PNone.

(** [self.get_schema_type_descriptor()] (lines 63-64) *)
Definition get_schema_type_descriptor (self : DynamicModel) : string := "".

(** [self.get_schema()] (lines 51-61).  The descriptor of line 64 is the empty
    string, so [type_value] stays [''] and the schema looked up is
    [stored_schema].  The assignment to [self._schema] goes through
    [__setattr__], whose condition fails at [attr_name not in ['_schema']]
    (see [setattr_schema] below), so it is a plain rebinding. *)
Definition get_schema (self : DynamicModel) : result (pyobj * DynamicModel) :=
  do cached <- getattr self "_schema";
  if negb (truthy cached) then
    let found := PSchema (stored_schema self) in
    Ok (found, object_setattr self "_schema" found)
  else Ok (cached, self).

(** [_schema.fields.all()] *)
Definition schema_fields (schema : pyobj) : result (list DynamicSchemaField) :=
  match schema with
  | PSchema s => Ok (fields_all s)
  | _ => Raise (AttributeError "fields")
  end.

(** The tuples [self.get_extra_fields()] yields (lines 42-46).  Every
    caller consumes the generator to its end without touching the instance
    in between, so the tuples are collected in a list. *)
Definition extra_field : Type := string * option string * string * bool * pyobj.

Definition get_extra_fields (self : DynamicModel) : result (list extra_field * DynamicModel) :=
  do '(_schema, self) <- get_schema self;
  do rows <- schema_fields _schema;
  do tuples <- for_each (fun (acc : list extra_field) field =>
      do value <- get_extra_field_value self (name field);
      Ok (acc ++ [(name field, verbose_name field, field_type field, required field, value)])%list)
    [] rows;
  Ok (tuples, self).

(** [self.get_extra_fields_names()] (lines 48-49) *)
Definition get_extra_fields_names (self : DynamicModel) : result (list string * DynamicModel) :=
  do '(tuples, self) <- get_extra_fields self;
  Ok (map (fun '(name, verbose_name, field_type, required, value) => name) tuples, self).

(** [self.extra_fields[el] = value] and [del self.extra_fields[el]]: the
    dictionary bound to [extra_fields] is updated in place. *)
Definition store_setitem (self : DynamicModel) (el : string) (value : pyobj) : result DynamicModel :=
  do store <- get_extra_fields_attr self;
  do store' <- py_setitem store el value;
  Ok (object_setattr self "extra_fields" store').

Definition store_delitem (self : DynamicModel) (el : string) : result DynamicModel :=
  do store <- get_extra_fields_attr self;
  do store' <- py_delitem store el;
  Ok (object_setattr self "extra_fields" store').

(** [self._sync_with_schema()] (lines 24-34) *)
Definition _sync_with_schema (self : DynamicModel) : result DynamicModel :=
  do '(schema_extra_fields, self) <- get_extra_fields_names self;
  do store <- get_extra_fields_attr self;
  do keys <- py_iter store;
  let clear_field :=
    filter (fun field_name => field_name ∉ schema_extra_fields) keys in
  do new_field <- comprehension_if (fun field_name =>
      do store <- get_extra_fields_attr self;
      do found <- py_contains field_name store;
      Ok (negb found))
    schema_extra_fields;
  do self <- for_each store_delitem self clear_field;
  for_each (fun self el => store_setitem self el PNone) self new_field.

(** The guarded write of lines 73-78, which [__setattr__] performs before
    it hands the value to the parent's assignment.  [and] evaluates its
    operands left to right and stops at the first false one. *)
Definition setattr_store_write (self : DynamicModel) (attr_name : string) (value : pyobj)
    : result DynamicModel :=
  if hasattr self "extra_fields"
     && bool_decide (attr_name ∉ meta_fields self)
     && bool_decide (attr_name ∉ ["_schema"])
  then
    do '(names, self) <- get_extra_fields_names self;
    if bool_decide (attr_name ∈ names)
    then store_setitem self attr_name value
    else Ok self
  else Ok self.

(** [self.__setattr__(attr_name, value)] (lines 72-80): the guarded write,
    then the parent's assignment of line 80. *)
Definition __setattr__ (self : DynamicModel) (attr_name : string) (value : pyobj) : result DynamicModel :=
  do self <-
    (if hasattr self "extra_fields"
        && bool_decide (attr_name ∉ meta_fields self)
        && bool_decide (attr_name ∉ ["_schema"])
     then
       do '(names, self) <- get_extra_fields_names self;
       if bool_decide (attr_name ∈ names)
       then store_setitem self attr_name value
       else Ok self
     else Ok self);
  Ok (object_setattr self attr_name value).

(** ** Strings *)

(** [s.capitalize()], [s.split("_")] and [" ".join(pieces)], on ASCII text:
    a byte outside [A-Za-z] is left as it is, whereas Python also changes the
    case of letters outside ASCII.  Statements about the case of a text are
    made for ASCII text ([is_ascii]) only. *)
Definition ascii_upper (c : ascii) : ascii :=
  let n := N_of_ascii c in
  if ((97 <=? n) && (n <=? 122))%N then ascii_of_N (n - 32) else c.

Definition ascii_lower (c : ascii) : ascii :=
  let n := N_of_ascii c in
  if ((65 <=? n) && (n <=? 90))%N then ascii_of_N (n + 32) else c.

Fixpoint lower (s : string) : string :=
  match s with
  | EmptyString => EmptyString
  | String c rest => String (ascii_lower c) (lower rest)
  end.

(** Is every character of the text an ASCII character? *)
Fixpoint is_ascii (s : string) : bool :=
  match s with
  | EmptyString => true
  | String c rest => (N_of_ascii c <? 128)%N && is_ascii rest
  end.

(** The first character in upper case, every other character in lower case. *)
Definition capitalize (s : string) : string :=
  match s with
  | EmptyString => EmptyString
  | String c rest => String (ascii_upper c) (lower rest)
  end.

Fixpoint split (sep : ascii) (s : string) : list string :=
  match s with
  | EmptyString => [EmptyString]
  | String c rest =>
      if decide (c = sep) then EmptyString :: split sep rest
      else match split sep rest with
           | piece :: pieces => String c piece :: pieces
           | [] => [String c EmptyString]
           end
  end.

Fixpoint join (sep : string) (pieces : list string) : string :=
  match pieces with
  | [] => EmptyString
  | [piece] => piece
  | piece :: rest => piece ++ sep ++ join sep rest
  end.

(** ** DynamicForm (lines 83-125) *)

(** The form field classes and the widget that [field_mapping] names, and
    what the constructor call of lines 103-107 records in a form field. *)
Module forms.
Inductive FieldClass := IntegerField | CharField | EmailField | BooleanField.
Inductive Widget := Textarea.
Record Field := new {
  cls : FieldClass;
  required : bool;
  widget : option Widget;
  initial : pyobj;
  label : string
}.
End forms.

(** One dictionary of [field_mapping]: the key ['field'] and the optional
    key ['widget']. *)
Record mapping_case := mkCase {
  case_field : forms.FieldClass;
  case_widget : option forms.Widget
}.

(** [DynamicForm.field_mapping] (lines 84-90) *)
Definition field_mapping : list (string * mapping_case) :=
  [ ("IntegerField", mkCase forms.IntegerField None);
    ("CharField", mkCase forms.CharField None);
    ("TextField", mkCase forms.CharField (Some forms.Textarea));
    ("EmailField", mkCase forms.EmailField None);
    ("BooleanField", mkCase forms.BooleanField None) ].

(** [dict(pairs)]: a later pair overrides an earlier one with the same key. *)
Definition dict {V} (pairs : list (string * V)) : gmap string V :=
  foldl (fun d '(k, v) => <[k := v]> d) ∅ pairs.

(** [self.fields], an ordered dictionary: assigning an existing key keeps
    its position, a new key goes to the end. *)
Fixpoint od_set {V} (key : string) (value : V) (d : list (string * V)) : list (string * V) :=
  match d with
  | [] => [(key, value)]
  | (k, v) :: d' =>
      if decide (k = key) then (key, value) :: d' else (k, v) :: od_set key value d'
  end.

Fixpoint od_get {V} (key : string) (d : list (string * V)) : option V :=
  match d with
  | [] => None
  | (k, v) :: d' => if decide (k = key) then Some v else od_get key d'
  end.

(** A [DynamicForm]: the model instance it edits, its form fields, and --
    once the form has been validated -- the cleaned data and whether any
    field failed. *)
Record DynamicForm := mkForm {
  instance : DynamicModel;
  fields : list (string * forms.Field);
  cleaned_data : gmap string pyobj;
  has_errors : bool
}.

Section translation.
(** [ugettext], imported as [_] (line 7): the translation of a message in
    the active language, the message itself when there is none. *)
Variable ugettext : string → string.

(** The label of lines 106-107.  [if verbose_name] is false for [None] and
    for the empty string. *)
Definition label_of (name : string) (verbose_name : option string) : string :=
  match verbose_name with
  | Some text =>
      if bool_decide (text = "") then capitalize (join " " (split "_" name))
      else capitalize (ugettext text)
  | None => capitalize (join " " (split "_" name))
  end.

(** The body of the loop of lines 99-107 for one tuple. *)
Definition add_form_field (self : DynamicForm) (tuple : extra_field) : result DynamicForm :=
  let '(name, verbose_name, field_type, req, value) := tuple in
  do field_mapping_case <-
    match dict field_mapping !! field_type with
    | Some case => Ok case
    | None => Raise (KeyError field_type)
    end;
  let req := if bool_decide (field_type = "BooleanField") then false else req in
  do initial <- get_extra_field_value (instance self) name;
  Ok (mkForm (instance self)
        (od_set name
           (forms.new (case_field field_mapping_case) req
              (case_widget field_mapping_case) initial
              (label_of name verbose_name))
           (fields self))
        (cleaned_data self) (has_errors self)).

(** [DynamicForm.__init__] (lines 92-107), applied to the form as
    [forms.ModelForm.__init__] leaves it.  The instance of a model form is
    always a model object and carries the method [get_extra_fields], so the
    tests of lines 95 and 98 are those of the type [DynamicModel].  The
    tuples are collected before the loop body runs; with a dictionary as
    store the generator of the source yields the same tuples one by one. *)
Definition DynamicForm_init (self : DynamicForm) : result DynamicForm :=
  do '(tuples, inst) <- get_extra_fields (instance self);
  for_each add_form_field
    (mkForm inst (fields self) (cleaned_data self) (has_errors self)) tuples.
End translation.

(** [forms.ModelForm.save(commit=False)] (Django): a form with errors raises
    [ValueError]; otherwise the instance is returned.  Django first copies
    the cleaned values of the model's own editable fields onto it; those
    assignments name fields of [_meta.fields], none of them [extra_fields]
    ([editable=False], line 16), and are left out.  The text of the message
    stands for Django's, which names the object and whether it was to be
    created or changed. *)
Definition ModelForm_save (self : DynamicForm) : result DynamicModel :=
  if has_errors self then Raise (ValueError "The form could not be saved because the data didn't validate.")
  else Ok (instance self).

(** [DynamicForm.save] (lines 109-125).  [m] is [self.instance].  With
    [commit] set, [m.save()] then writes the row of the instance, which has
    no part in this embedding. *)
Definition DynamicForm_save (self : DynamicForm) : result DynamicModel :=
  do m <- ModelForm_save self;
  let extra_fields : gmap string pyobj := ∅ in
  do '(tuples, m) <- get_extra_fields m;
  let extra_fields_names :=
    map (fun '(name, verbose_name, field_type, req, value) => name) tuples in
  do cleaned_keys <- py_iter (PDict (cleaned_data self));
  do extra_fields <- for_each (fun extra_fields cleaned_key =>
      if bool_decide (cleaned_key ∈ extra_fields_names) then
        do value <- py_getitem (PDict (cleaned_data self)) cleaned_key;
        Ok (<[cleaned_key := value]> extra_fields)
      else Ok extra_fields)
    extra_fields cleaned_keys;
  __setattr__ m "extra_fields" (PDict extra_fields).

(** ** DynamicSchemaField and DynamicSchema (lines 135-204) *)

(** The database table of [DynamicSchemaField]: its rows, oldest first.  An
    operation on the table returns its outcome together with the table it
    leaves behind, also when it raises. *)
Abbreviation table := (list DynamicSchemaField).

Definition db_action (A : Type) : Type := table → result A * table.

(** [self.__dict__] of a field object: one entry per column, the foreign key
    under the name of its column, [schema_id]. *)
Definition field_dict (self : DynamicSchemaField) : gmap string pyobj :=
  {[ "id" := from_option PInt PNone (id self);
     "schema_id" := PInt (schema_id self);
     "name" := PStr (name self);
     "verbose_name" := from_option PStr PNone (verbose_name self);
     "field_type" := PStr (field_type self);
     "required" := PBool (required self) ]}.

(** [d.get(key)] *)
Definition dict_get (d : gmap string pyobj) (key : string) : pyobj :=
  default PNone (d !! key).

(** [[f.name for f in DynamicSchemaField._meta.fields]] *)
Definition field_meta_names : list string :=
  ["id"; "schema"; "name"; "verbose_name"; "field_type"; "required"].

(** [l.remove(x)]: drop the first occurrence of [x]. *)
Fixpoint list_remove (x : string) (l : list string) : result (list string) :=
  match l with
  | [] => Raise (ValueError "list.remove(x): x not in list")
  | y :: l' =>
      if decide (y = x) then Ok l'
      else do r <- list_remove x l'; Ok (y :: r)
  end.

(** [DynamicSchemaField.objects.get(pk=key)], for a key in the range of the
    integers of the database (64 bits, signed); beyond it the database driver
    refuses the query. *)
Definition objects_get (key : Z) (db : table) : result DynamicSchemaField :=
  match filter (fun row => id row = Some key) db with
  | [] => Raise DoesNotExist
  | [row] => Ok row
  | _ => Raise MultipleObjectsReturned
  end.

(** [DynamicSchemaField.clean] (lines 189-201) *)
Definition DynamicSchemaField_clean (self : DynamicSchemaField) (db : table) : result unit :=
  match id self with
  | Some key =>
      if negb (truthy (PInt key)) then Ok tt
      else
        do old_model <- objects_get key db;
        do fields <- list_remove "verbose_name" field_meta_names;
        for_each (fun _ field_name =>
            if negb (py_eq (dict_get (field_dict old_model) field_name)
                           (dict_get (field_dict self) field_name))
            then Raise (ValidationError "%s value cannot be modified")
            else Ok tt)
          tt fields
  | None => Ok tt
  end.

(** [unique_together = ('schema', 'name')] (line 176), as the database
    enforces it: is there another row with the schema and name of [self]? *)
Definition unique_together_taken (self : DynamicSchemaField) (db : table) : bool :=
  bool_decide (Exists (fun row =>
    id row ≠ id self ∧ schema_id row = schema_id self ∧ name row = name self) db).

(** The next value of the automatic primary key: a value no row of the
    table has.  (A database does not hand out the key of a deleted row
    again; only the freshness of the value is used.) *)
Definition next_id (db : table) : Z :=
  1 + foldr Z.max 0 (omap id db).

(** [models.Model.save] (Django): a row without [id] is inserted under a new
    [id]; a row with an [id] replaces the stored row of that [id], or is
    inserted if there is none.  The database refuses a row that breaks
    [unique_together].  No validator runs. *)
Definition Model_save (self : DynamicSchemaField) : db_action DynamicSchemaField :=
  fun db =>
    if unique_together_taken self db then (Raise IntegrityError, db)
    else match id self with
         | None =>
             let row := mkField (Some (next_id db)) (schema_id self) (name self)
                          (verbose_name self) (field_type self) (required self) in
             (Ok row, (db ++ [row])%list)
         | Some key =>
             if bool_decide (Exists (fun row => id row = Some key) db)
             then (Ok self,
                   (fun row => if decide (id row = Some key) then self else row) <$> db)
             else (Ok self, (db ++ [self])%list)
         end.

(** [DynamicSchemaField.save] (lines 185-187) *)
Definition DynamicSchemaField_save (self : DynamicSchemaField) : db_action DynamicSchemaField :=
  fun db =>
    match DynamicSchemaField_clean self db with
    | Raise e => (Raise e, db)
    | Ok _ => Model_save self db
    end.

(** The validator declared on [name] (lines 179-180): the pattern
    [^[\w]+$], where [$] also matches before a final line feed.  Django runs
    the validators of a field in [full_clean], as a model form does. *)
Definition word_character (c : ascii) : bool :=
  let n := N_of_ascii c in
  ((48 <=? n) && (n <=? 57) || (65 <=? n) && (n <=? 90)
   || (97 <=? n) && (n <=? 122) || (n =? 95))%N.

Fixpoint word_characters (s : string) : bool :=
  match s with
  | EmptyString => true
  | String c rest => word_character c && word_characters rest
  end.

Fixpoint without_final_line_feed (s : string) : string :=
  match s with
  | EmptyString => EmptyString
  | String c EmptyString => if decide (c = "010"%char) then EmptyString else s
  | String c rest => String c (without_final_line_feed rest)
  end.

Definition name_validator (value : string) : result unit :=
  let body := without_final_line_feed value in
  if negb (bool_decide (body = "")) && word_characters body then Ok tt
  else Raise (ValidationError
         "Name should contain only alphanumeric characters and underscores.").

(** [DynamicSchema.add_field] (lines 147-148): [self.fields.create] builds
    the row with the defaults of lines 181 and 183 and saves it. *)
Definition add_field (self : DynamicSchema) (name type : string) : db_action DynamicSchemaField :=
  DynamicSchemaField_save (mkField None (pk self) name None type true).

(** [DynamicSchema.remove_field] (lines 150-151): [self.fields.filter(name=name)]
    selects the rows of this schema with that name, [delete()] drops them. *)
Definition remove_field (self : DynamicSchema) (name_ : string) : db_action unit :=
  fun db =>
    (Ok tt, filter (fun row => ¬ (schema_id row = pk self ∧ name row = name_)) db).

(** ** Construction, field-type choices and schema lookup *)

(** [DynamicModel.__init__] (lines 18-22).  [models.Model.__init__] (line 20)
    binds the fields of the new instance one after the other with [setattr];
    [assignments] are those bindings in their order, with the values as the
    fields store them.  [own] and [stored] are the class data of the record
    [DynamicModel]. *)
Definition DynamicModel_init (own : list string) (stored : DynamicSchema)
    (assignments : list (string * pyobj)) : result DynamicModel :=
  let self := mkModel own stored ∅ in
  do self <- __setattr__ self "_schema" PNone;
  do self <- for_each (fun self '(attr_name, value) => __setattr__ self attr_name value)
               self assignments;
  do '(_, self) <- get_schema self;
  _sync_with_schema self.

(** [DynamicSchemaField.FIELD_TYPES] (lines 167-173) *)
Definition FIELD_TYPES : list (string * string) :=
  [ ("IntegerField", "Integer number field");
    ("CharField", "One line of text");
    ("TextField", "Multiline text input");
    ("EmailField", "Email");
    ("BooleanField", "Checkbox") ].

(** [limit_choices] (lines 158-163).  [setting] is the value of
    [settings.DYNAMICMODEL_LIMIT_FIELD_TYPES], [None] when the setting is
    absent; an empty list is false in [if limited_choices]. *)
Definition limit_choices (setting : option (list string))
    (init_choices : list (string * string)) : list (string * string) :=
  match setting with
  | Some (k0 :: ks) => filter (fun '(k, v) => k ∈ k0 :: ks) init_choices
  | _ => init_choices
  end.

(** The schema object of primary key [key] as a query returns it:
    [fields.all()] yields the rows of the field table that refer to it
    ([related_name='fields'], line 178). *)
Definition schema_from_table (key model_ : Z) (type_value_ : string) (db : table) : DynamicSchema :=
  mkSchema key model_ type_value_ (filter (fun row => schema_id row = key) db).

(** The table of [DynamicSchema]: one row per schema, with the columns of
    lines 140-141 and the primary key. *)
Record SchemaRow := mkSchemaRow {
  row_pk : Z;
  row_model : Z;
  row_type_value : string
}.

Global Instance SchemaRow_eq_dec : EqDecision SchemaRow.
Proof. solve_decision. Defined.

(** [get_or_create(type_value=..., model=...)] (Django): the row that
    matches, or a new row under the next primary key; the flag tells whether
    the row was created. *)
Definition get_or_create (type_value_ : string) (model_ : Z)
    (schemas : list SchemaRow) : result (SchemaRow * bool) * list SchemaRow :=
  match filter (fun row => row_type_value row = type_value_ ∧ row_model row = model_) schemas with
  | [] =>
      let row := mkSchemaRow (1 + foldr Z.max 0 (row_pk <$> schemas)) model_ type_value_ in
      (Ok (row, true), (schemas ++ [row])%list)
  | [row] => (Ok (row, false), schemas)
  | _ => (Raise MultipleObjectsReturned, schemas)
  end.

(** [DynamicSchemaManager.get_for_model] (lines 130-132), to which
    [DynamicSchema.get_for_model] (lines 153-155) passes its arguments.
    [content_type] is [ContentType.objects.get_for_model]: the primary key of
    the content type of a model class, given here by its name. *)
Definition get_for_model (content_type : string → Z) (model_class : string)
    (type_value_ : string) (schemas : list SchemaRow)
    : result SchemaRow * list SchemaRow :=
  match get_or_create type_value_ (content_type model_class) schemas with
  | (Ok (schema, created), schemas') => (Ok schema, schemas')
  | (Raise e, schemas') => (Raise e, schemas')
  end.

(** * Vocabulary of the statements *)

(** ** Instances in their state after construction *)

(** [has_store self A]: [extra_fields] is bound to the dictionary [A];
    [has_schema self S]: [_schema] is bound to the schema object [S].  Both
    hold once [__init__] (lines 18-22) has run. *)
Definition has_store (self : DynamicModel) (A : gmap string pyobj) : Prop :=
  inst_dict self !! "extra_fields" = Some (PDict A).

Definition has_schema (self : DynamicModel) (S : DynamicSchema) : Prop :=
  inst_dict self !! "_schema" = Some (PSchema S).

(** The field names a schema declares, in the order of its rows. *)
Definition names (S : DynamicSchema) : list string := name <$> fields_all S.

(** The instance [self] with its store replaced by [A]. *)
Definition with_store (self : DynamicModel) (A : gmap string pyobj) : DynamicModel :=
  object_setattr self "extra_fields" (PDict A).

(** The tuple [get_extra_fields] yields for one row of the schema, on an
    instance whose store is [A]. *)
Definition tuple_of (A : gmap string pyobj) (field : DynamicSchemaField) : extra_field :=
  (name field, verbose_name field, field_type field, required field,
   default PNone (A !! name field)).

(** An order whose schema declares [a] and [b] and whose store still holds
    the stale key [c] (scenario B of the specification). *)
Definition schema_ab : DynamicSchema :=
  mkSchema 1 7 ""
    [ mkField (Some 1) 1 "a" None "IntegerField" true;
      mkField (Some 2) 1 "b" None "IntegerField" true ].

Definition stale_store : gmap string pyobj :=
  {[ "a" := PInt 1; "b" := PInt 2; "c" := PInt 3 ]}.

Definition stale_order : DynamicModel :=
  mkModel ["id"] schema_ab
    {[ "id" := PInt 10; "extra_fields" := PDict stale_store; "_schema" := PSchema schema_ab ]}.

(** An order whose schema declares a field called [id], the name of the
    model's own primary key, next to [priority]. *)
Definition schema_id_priority : DynamicSchema :=
  mkSchema 2 7 ""
    [ mkField (Some 3) 2 "id" None "IntegerField" true;
      mkField (Some 4) 2 "priority" None "IntegerField" true ].

Definition fresh_store : gmap string pyobj :=
  {[ "id" := PNone; "priority" := PNone ]}.

Definition fresh_order : DynamicModel :=
  mkModel ["id"] schema_id_priority
    {[ "id" := PInt 10; "extra_fields" := PDict fresh_store;
       "_schema" := PSchema schema_id_priority ]}.

(** The field types [field_mapping] knows. *)
Definition mapped (field_type : string) : Prop :=
  is_Some (dict field_mapping !! field_type).

(** Closed decidable facts about the example data are settled by evaluation. *)
Ltac by_evaluation := apply (bool_decide_unpack _); vm_compute; exact I.

(** An order whose schema has a Boolean field declared as required, with a
    display name in mixed case, and a text field without display name. *)
Definition schema_paid_due : DynamicSchema :=
  mkSchema 3 7 ""
    [ mkField (Some 5) 3 "is_paid" (Some "Order Paid") "BooleanField" true;
      mkField (Some 6) 3 "dueDate_utc" None "TextField" true ].

Definition paid_due_store : gmap string pyobj :=
  {[ "is_paid" := PNone; "dueDate_utc" := PStr "tomorrow" ]}.

Definition paid_due_form : DynamicForm :=
  mkForm
    (mkModel ["id"] schema_paid_due
       {[ "id" := PInt 11; "extra_fields" := PDict paid_due_store;
          "_schema" := PSchema schema_paid_due ]})
    [] ∅ false.

(** That form after [DynamicForm.__init__], without translation. *)
Definition paid_due_form_built : DynamicForm :=
  mkForm (instance paid_due_form)
    [ ("is_paid", forms.new forms.BooleanField false None PNone "Order paid");
      ("dueDate_utc",
       forms.new forms.CharField true (Some forms.Textarea) (PStr "tomorrow") "Duedate utc") ]
    ∅ false.

(** Without a translation catalogue [ugettext] returns its argument. *)
Definition untranslated (message : string) : string := message.

(** Every underscore replaced by a space. *)
Fixpoint underscores_to_spaces (s : string) : string :=
  match s with
  | EmptyString => EmptyString
  | String c rest =>
      String (if decide (c = "_"%char) then " "%char else c) (underscores_to_spaces rest)
  end.

(** The label as C9 words it: the display name itself when there is one,
    otherwise the field name with spaces for underscores and its first
    letter in upper case. *)
Definition label_as_claimed (name : string) (verbose_name : option string) : string :=
  match verbose_name with
  | Some text => text
  | None =>
      match underscores_to_spaces name with
      | EmptyString => EmptyString
      | String c rest => String (ascii_upper c) rest
      end
  end.

(** A valid form for an order holding [a] and [b], from which the form field
    [b] has been taken out ([del form.fields['b']]), so that only [a] is
    cleaned. *)
Definition ab_store : gmap string pyobj := {[ "a" := PInt 1; "b" := PInt 2 ]}.

Definition ab_order : DynamicModel :=
  mkModel ["id"] schema_ab
    {[ "id" := PInt 12; "extra_fields" := PDict ab_store; "_schema" := PSchema schema_ab ]}.

Definition form_a_only : DynamicForm :=
  mkForm ab_order
    [ ("a", forms.new forms.IntegerField true None (PInt 1) "A") ]
    {[ "a" := PInt 5 ]} false.

(** A stored field [priority] of schema 1. *)
Definition priority_row : DynamicSchemaField :=
  mkField (Some 1) 1 "priority" None "IntegerField" true.

(** The state of an instance while [__init__] runs: [_schema] is [None] or
    already the stored schema, and [extra_fields] is unbound or a dictionary. *)
Definition under_construction (self : DynamicModel) : Prop :=
  (inst_dict self !! "_schema" = Some PNone
   ∨ inst_dict self !! "_schema" = Some (PSchema (stored_schema self)))
  ∧ (inst_dict self !! "extra_fields" = None
     ∨ ∃ A, inst_dict self !! "extra_fields" = Some (PDict A)).

(** Is the object a dictionary? *)
Definition is_dict (o : pyobj) : bool :=
  match o with
  | PDict _ => true
  | _ => false
  end.

(** The keys of a field table: every row has a primary key, no primary key
    occurs twice, and no schema has two rows of one name ([unique_together],
    line 176). *)
Definition table_keys (db : table) : Prop :=
  Forall (fun row => is_Some (id row)) db
  ∧ NoDup (id <$> db)
  ∧ NoDup ((fun row => (schema_id row, name row)) <$> db).

(** The keys of the schema table: unique primary keys, and at most one
    schema per model and type value ([unique_together], line 137). *)
Definition schema_keys (schemas : list SchemaRow) : Prop :=
  NoDup (row_pk <$> schemas)
  ∧ NoDup ((fun row => (row_model row, row_type_value row)) <$> schemas).

(** Example data: a table with the fields [a] and [b] of schema 1 and a
    field [a] of schema 2. *)
Definition table_ab : table :=
  [ mkField (Some 1) 1 "a" None "IntegerField" true;
    mkField (Some 2) 1 "b" None "IntegerField" true;
    mkField (Some 3) 2 "a" None "CharField" true ].

Definition schema_one : DynamicSchema := mkSchema 1 7 "" [].

Definition content_type_example (model_class : string) : Z :=
  if decide (model_class = "Order") then 7 else 8.

(** * Properties *)

Section model_lemmas.
Context (self : DynamicModel) (A : gmap string pyobj) (S : DynamicSchema).
Hypothesis Hstore : has_store self A.
Hypothesis Hschema : has_schema self S.

Lemma has_store_with_store (B : gmap string pyobj) : has_store (with_store self B) B.
Proof. unfold has_store, with_store; simpl. apply lookup_insert_eq. Qed.

Lemma has_schema_with_store (B : gmap string pyobj) : has_schema (with_store self B) S.
Proof.
  unfold has_schema, with_store; simpl.
  rewrite lookup_insert_ne; [exact Hschema | discriminate].
Qed.

Lemma with_store_with_store (B C : gmap string pyobj) :
  with_store (with_store self B) C = with_store self C.
Proof. unfold with_store, object_setattr; simpl. by rewrite insert_insert_eq. Qed.

Lemma with_store_same : with_store self A = self.
Proof.
  clear Hschema. unfold with_store, object_setattr.
  destruct self as [o s d]; simpl in *. f_equal. by apply insert_id.
Qed.

Lemma get_extra_fields_attr_store : get_extra_fields_attr self = Ok (PDict A).
Proof. unfold get_extra_fields_attr. by rewrite Hstore. Qed.

Lemma hasattr_store : hasattr self "extra_fields" = true.
Proof. unfold hasattr, getattr. by rewrite Hstore. Qed.

Lemma get_schema_cached : get_schema self = Ok (PSchema S, self).
Proof. unfold get_schema, getattr. by rewrite Hschema. Qed.

Lemma get_extra_field_value_store (key : string) :
  get_extra_field_value self key = Ok (default PNone (A !! key)).
Proof.
  unfold get_extra_field_value. rewrite get_extra_fields_attr_store; simpl.
  case_bool_decide as Hin.
  - destruct Hin as [v Hv]. by rewrite Hv.
  - apply eq_None_not_Some in Hin. by rewrite Hin.
Qed.

Lemma get_extra_fields_loop (rows : list DynamicSchemaField) (acc : list extra_field) :
  for_each (fun (acc : list extra_field) field =>
      do value <- get_extra_field_value self (name field);
      Ok (acc ++ [(name field, verbose_name field, field_type field, required field, value)])%list)
    acc rows
  = Ok (acc ++ (tuple_of A <$> rows))%list.
Proof.
  revert acc. induction rows as [|f rows IH]; intros acc; simpl.
  - by rewrite app_nil_r.
  - rewrite get_extra_field_value_store; simpl. rewrite IH.
    by rewrite <- app_assoc.
Qed.

Lemma get_extra_fields_store :
  get_extra_fields self = Ok (tuple_of A <$> fields_all S, self).
Proof.
  unfold get_extra_fields. rewrite get_schema_cached; simpl.
  by rewrite get_extra_fields_loop.
Qed.

Lemma get_extra_fields_names_store :
  get_extra_fields_names self = Ok (names S, self).
Proof.
  unfold get_extra_fields_names. rewrite get_extra_fields_store; simpl.
  do 2 f_equal. unfold names. rewrite <- list_fmap_compose.
  by apply list_fmap_ext.
Qed.

Lemma store_setitem_store (el : string) (value : pyobj) :
  store_setitem self el value = Ok (with_store self (<[el := value]> A)).
Proof. unfold store_setitem. by rewrite get_extra_fields_attr_store. Qed.

Lemma store_delitem_store (el : string) :
  is_Some (A !! el) →
  store_delitem self el = Ok (with_store self (delete el A)).
Proof.
  intros [v Hv]. unfold store_delitem.
  rewrite get_extra_fields_attr_store; simpl. by rewrite Hv.
Qed.
End model_lemmas.

(** The first [get_schema] of an instance, whose [_schema] is still [None]
    (line 19), binds the stored schema: [has_schema] holds from line 21 on. *)
Lemma get_schema_first (self : DynamicModel) :
  inst_dict self !! "_schema" = Some PNone →
  ∃ self', get_schema self = Ok (PSchema (stored_schema self), self')
    ∧ has_schema self' (stored_schema self)
    ∧ inst_dict self' !! "extra_fields" = inst_dict self !! "extra_fields".
Proof.
  intros Hnone. unfold get_schema, getattr. rewrite Hnone. cbn [bind truthy negb].
  eexists. split; [reflexivity | ]. split.
  - unfold has_schema; simpl. apply lookup_insert_eq.
  - simpl. by rewrite lookup_insert_ne.
Qed.

(** ** The two loops of [_sync_with_schema] *)

Lemma clear_loop (keys : list string) :
  ∀ (self : DynamicModel) (A : gmap string pyobj),
    has_store self A → NoDup keys → (∀ k, k ∈ keys → is_Some (A !! k)) →
    ∃ A', for_each store_delitem self keys = Ok (with_store self A')
          ∧ ∀ k, A' !! k = if decide (k ∈ keys) then None else A !! k.
Proof.
  induction keys as [|k0 keys IH]; intros self A Hstore Hnodup Hin; cbn [for_each].
  - exists A. split; [by rewrite (with_store_same self A) | ].
    intros k. rewrite decide_False; [done | apply not_elem_of_nil].
  - apply NoDup_cons in Hnodup as [Hk0 Hnodup].
    rewrite (store_delitem_store self A) by (auto; apply Hin; left).
    cbn [bind].
    destruct (IH (with_store self (delete k0 A)) (delete k0 A)) as (A' & Hrun & Hlook).
    + apply has_store_with_store.
    + done.
    + intros k Hk. rewrite lookup_delete_ne; [apply Hin; by right | ].
      intros ->. done.
    + exists A'. split.
      * by rewrite Hrun, with_store_with_store.
      * intros k. rewrite Hlook.
        destruct (decide (k = k0)) as [->|Hne].
        -- rewrite (decide_True (P := k0 ∈ k0 :: keys)) by left.
           rewrite lookup_delete_eq. by destruct (decide _).
        -- rewrite lookup_delete_ne by done.
           destruct (decide (k ∈ keys)) as [Hk|Hk].
           ++ by rewrite decide_True by (by right).
           ++ rewrite decide_False; [done | ].
              by intros [?|?]%elem_of_cons.
Qed.

Lemma fill_loop (keys : list string) :
  ∀ (self : DynamicModel) (A : gmap string pyobj),
    has_store self A →
    ∃ A', for_each (fun self el => store_setitem self el PNone) self keys
            = Ok (with_store self A')
          ∧ ∀ k, A' !! k = if decide (k ∈ keys) then Some PNone else A !! k.
Proof.
  induction keys as [|k0 keys IH]; intros self A Hstore; cbn [for_each].
  - exists A. split; [by rewrite (with_store_same self A) | ].
    intros k. rewrite decide_False; [done | apply not_elem_of_nil].
  - rewrite (store_setitem_store self A) by done. cbn [bind].
    destruct (IH (with_store self (<[k0 := PNone]> A)) (<[k0 := PNone]> A))
      as (A' & Hrun & Hlook); [apply has_store_with_store | ].
    exists A'. split; [by rewrite Hrun, with_store_with_store | ].
    intros k. rewrite Hlook.
    destruct (decide (k ∈ keys)) as [Hk|Hk].
    + by rewrite decide_True by (by right).
    + destruct (decide (k = k0)) as [->|Hne].
      * rewrite lookup_insert_eq. by rewrite decide_True by left.
      * rewrite lookup_insert_ne by done.
        rewrite decide_False; [done | ]. by intros [?|?]%elem_of_cons.
Qed.

Lemma new_field_comprehension (self : DynamicModel) (A : gmap string pyobj) (l : list string) :
  has_store self A →
  comprehension_if (fun field_name =>
      do store <- get_extra_fields_attr self;
      do found <- py_contains field_name store;
      Ok (negb found)) l
  = Ok (filter (fun field_name => A !! field_name = None) l).
Proof.
  intros Hstore. induction l as [|n l IH]; [done | ].
  cbn [comprehension_if]. rewrite IH.
  rewrite (get_extra_fields_attr_store self A) by done.
  cbn [bind py_contains]. rewrite filter_cons.
  case_bool_decide as Hin; cbn [negb].
  - rewrite decide_False; [done | ]. destruct Hin as [v Hv]. by rewrite Hv.
  - apply eq_None_not_Some in Hin. by rewrite decide_True.
Qed.

(** What [_sync_with_schema] leaves in the store, key by key. *)
Lemma sync_result (self : DynamicModel) (A : gmap string pyobj) (S : DynamicSchema) :
  has_store self A → has_schema self S →
  ∃ A', _sync_with_schema self = Ok (with_store self A')
        ∧ ∀ k, A' !! k =
               if decide (k ∈ names S) then Some (default PNone (A !! k)) else None.
Proof.
  intros Hstore Hschema. unfold _sync_with_schema.
  rewrite (get_extra_fields_names_store self A S) by done. cbn [bind].
  rewrite (new_field_comprehension self A) by done.
  rewrite (get_extra_fields_attr_store self A) by done. cbn [bind py_iter].
  set (clear_field := filter (fun field_name => field_name ∉ names S) (map_to_list A).*1).
  set (new_field := filter (fun field_name => A !! field_name = None) (names S)).
  destruct (clear_loop clear_field self A) as (A1 & Hrun1 & Hlook1); [done | | | ].
  { apply NoDup_filter, NoDup_fst_map_to_list. }
  { intros k [_ Hk]%list_elem_of_filter.
    apply list_elem_of_fmap in Hk as ([k' v] & -> & Hk).
    apply elem_of_map_to_list in Hk. eauto. }
  rewrite Hrun1. cbn [bind].
  destruct (fill_loop new_field (with_store self A1) A1) as (A2 & Hrun2 & Hlook2);
    [apply has_store_with_store | ].
  exists A2. split; [by rewrite Hrun2, with_store_with_store | ].
  intros k. rewrite Hlook2, Hlook1.
  assert (Hcf : k ∈ clear_field ↔ is_Some (A !! k) ∧ k ∉ names S).
  { unfold clear_field. rewrite list_elem_of_filter. split.
    - intros [Hn Hk]. split; [ | done].
      apply list_elem_of_fmap in Hk as ([k' v] & -> & Hk).
      apply elem_of_map_to_list in Hk. eauto.
    - intros [[v Hv] Hn]. split; [done | ].
      apply list_elem_of_fmap. exists (k, v). split; [done | ].
      by apply elem_of_map_to_list. }
  assert (Hnf : k ∈ new_field ↔ A !! k = None ∧ k ∈ names S).
  { unfold new_field. by rewrite list_elem_of_filter. }
  destruct (decide (k ∈ names S)) as [Hk|Hk].
  - destruct (A !! k) as [v|] eqn:E.
    + rewrite decide_False by (rewrite Hnf; intros [? ?]; congruence).
      rewrite decide_False by (rewrite Hcf; intros [? ?]; contradiction). done.
    + by rewrite decide_True by (rewrite Hnf; split; done).
  - rewrite decide_False by (rewrite Hnf; intros [? ?]; contradiction).
    destruct (decide (k ∈ clear_field)) as [|Hn]; [done | ].
    rewrite Hcf in Hn. apply eq_None_not_Some. intros Hs. by apply Hn.
Qed.

(** ** Synchronisation of the store with the schema *)

Example sync_scenario_B :
  _sync_with_schema stale_order
  = Ok (with_store stale_order {[ "a" := PInt 1; "b" := PInt 2 ]}).
Proof. vm_compute. reflexivity. Qed.

(** C1 (sync completeness).  After [_sync_with_schema] the key set of the
    store is exactly the set of field names the schema declares: every
    declared name is a key and no other key remains.  For a schema without
    fields the store is left empty. *)
Theorem sync_completeness (self : DynamicModel) (A : gmap string pyobj) (S : DynamicSchema) :
  has_store self A → has_schema self S →
  ∃ A', _sync_with_schema self = Ok (with_store self A')
        ∧ dom A' = list_to_set (names S)
        ∧ (fields_all S = [] → A' = ∅).
Proof.
  intros Hstore Hschema.
  destruct (sync_result self A S Hstore Hschema) as (A' & Hrun & Hlook).
  exists A'. split; [done | ].
  assert (Hdom : dom A' = list_to_set (names S)).
  { apply set_eq. intros k. rewrite elem_of_dom, elem_of_list_to_set, Hlook.
    destruct (decide (k ∈ names S)) as [Hk|Hk].
    - split; eauto.
    - split; [by intros [? ?] | done]. }
  split; [done | ].
  intros Hnil. apply dom_empty_iff_L. rewrite Hdom. unfold names. by rewrite Hnil.
Qed.

Lemma sync_completeness_witness :
  ∃ A', _sync_with_schema stale_order = Ok (with_store stale_order A')
        ∧ dom A' = list_to_set (names schema_ab)
        ∧ (fields_all schema_ab = [] → A' = ∅).
Proof. apply (sync_completeness stale_order stale_store schema_ab); reflexivity. Defined.

(** C2 (sync idempotence).  Synchronising an instance that has just been
    synchronised with the same schema returns it unchanged, so two calls in
    a row give what one call gives. *)
Theorem sync_idempotent (self : DynamicModel) (A : gmap string pyobj) (S : DynamicSchema) :
  has_store self A → has_schema self S →
  ∃ self', _sync_with_schema self = Ok self'
           ∧ _sync_with_schema self' = Ok self'
           ∧ (do once <- _sync_with_schema self; _sync_with_schema once)
             = _sync_with_schema self.
Proof.
  intros Hstore Hschema.
  destruct (sync_result self A S Hstore Hschema) as (A1 & Hrun1 & Hlook1).
  destruct (sync_result (with_store self A1) A1 S) as (A2 & Hrun2 & Hlook2).
  { apply has_store_with_store. }
  { by apply has_schema_with_store. }
  assert (HA : A2 = A1).
  { apply map_eq. intros k. rewrite Hlook2, Hlook1.
    by destruct (decide (k ∈ names S)). }
  rewrite with_store_with_store, HA in Hrun2.
  exists (with_store self A1). rewrite Hrun1. by cbn [bind].
Qed.

Lemma sync_idempotent_witness :
  ∃ self', _sync_with_schema stale_order = Ok self'
           ∧ _sync_with_schema self' = Ok self'
           ∧ (do once <- _sync_with_schema stale_order; _sync_with_schema once)
             = _sync_with_schema stale_order.
Proof. apply (sync_idempotent stale_order stale_store schema_ab); reflexivity. Defined.

(** C3 (sync value preservation).  A key that is in the store before the
    call and is a declared field name keeps its value.  The call does nothing
    else than drop the keys that are not declared and bind [None] to the
    declared names that were missing; the rest of the instance is untouched. *)
Theorem sync_preserves_values (self : DynamicModel) (A : gmap string pyobj) (S : DynamicSchema) :
  has_store self A → has_schema self S →
  ∃ A', _sync_with_schema self = Ok (with_store self A')
        ∧ (∀ k v, A !! k = Some v → k ∈ names S → A' !! k = Some v)
        ∧ (∀ k, A !! k = None → k ∈ names S → A' !! k = Some PNone)
        ∧ (∀ k, k ∉ names S → A' !! k = None).
Proof.
  intros Hstore Hschema.
  destruct (sync_result self A S Hstore Hschema) as (A' & Hrun & Hlook).
  exists A'. split; [done | ].
  repeat split.
  - intros k v Hk Hin. by rewrite Hlook, decide_True, Hk.
  - intros k Hk Hin. by rewrite Hlook, decide_True, Hk.
  - intros k Hin. by rewrite Hlook, decide_False.
Qed.

Lemma sync_preserves_values_witness :
  ∃ A', _sync_with_schema stale_order = Ok (with_store stale_order A')
        ∧ (∀ k v, stale_store !! k = Some v → k ∈ names schema_ab → A' !! k = Some v)
        ∧ (∀ k, stale_store !! k = None → k ∈ names schema_ab → A' !! k = Some PNone)
        ∧ (∀ k, k ∉ names schema_ab → A' !! k = None).
Proof. apply (sync_preserves_values stale_order stale_store schema_ab); reflexivity. Defined.

(** ** Attribute assignment *)

(** [__setattr__] evaluated: the store is written exactly when the three
    tests of lines 74-76 pass; the attribute is bound in either case. *)
Lemma setattr_eval (self : DynamicModel) (A : gmap string pyobj) (S : DynamicSchema)
    (attr_name : string) (value : pyobj) :
  has_store self A → has_schema self S →
  __setattr__ self attr_name value
  = Ok (object_setattr
          (if decide ((attr_name ∉ meta_fields self) ∧ attr_name ≠ "_schema"
                      ∧ attr_name ∈ names S)
           then with_store self (<[attr_name := value]> A) else self)
          attr_name value).
Proof.
  intros Hstore Hschema. unfold __setattr__.
  rewrite (hasattr_store self A) by done. cbn [andb].
  destruct (decide (attr_name ∉ meta_fields self)) as [Hmeta|Hmeta].
  2:{ rewrite (bool_decide_eq_false_2 _ Hmeta). cbn [andb bind].
      rewrite decide_False; [done | by intros [? _]]. }
  rewrite (bool_decide_eq_true_2 _ Hmeta). cbn [andb].
  destruct (decide (attr_name = "_schema")) as [->|Hsch].
  { rewrite bool_decide_eq_false_2 by (intros H; apply H; left).
    cbn [bind]. rewrite decide_False; [done | by intros (_ & ? & _)]. }
  rewrite bool_decide_eq_true_2
    by (intros [?|H]%elem_of_cons; [done | by apply not_elem_of_nil in H]).
  rewrite (get_extra_fields_names_store self A S) by done. cbn [bind].
  destruct (decide (attr_name ∈ names S)) as [Hin|Hin].
  - rewrite (bool_decide_eq_true_2 _ Hin).
    rewrite (store_setitem_store self A) by done. cbn [bind].
    by rewrite decide_True.
  - rewrite (bool_decide_eq_false_2 _ Hin). cbn [bind].
    rewrite decide_False; [done | by intros (_ & _ & ?)].
Qed.

(** The assignment [self._schema = ...] of line 56 never reaches the store. *)
Lemma setattr_schema (self : DynamicModel) (value : pyobj) :
  __setattr__ self "_schema" value = Ok (object_setattr self "_schema" value).
Proof.
  unfold __setattr__.
  rewrite (bool_decide_eq_false_2 ("_schema" ∉ ["_schema"]))
    by (intros H; apply H; left).
  by rewrite andb_false_r.
Qed.

Example setattr_priority :
  __setattr__ fresh_order "priority" (PInt 5)
  = Ok (object_setattr
          (with_store fresh_order {[ "id" := PNone; "priority" := PInt 5 ]})
          "priority" (PInt 5)).
Proof. vm_compute. reflexivity. Qed.

(** C8 as stated fails twice.  [id] is a declared field of the schema, yet
    assigning it leaves the store as it was ([id] still maps to [None]):
    line 74 keeps the names of the model's own fields out of the store.  And
    [extra_fields] is not a declared field, yet assigning it replaces the
    whole store. *)
Lemma setattr_claim_counterexample :
  ("id" ∈ names schema_id_priority
   ∧ __setattr__ fresh_order "id" (PInt 7) = Ok (object_setattr fresh_order "id" (PInt 7))
   ∧ has_store (object_setattr fresh_order "id" (PInt 7)) fresh_store
   ∧ fresh_store !! "id" = Some PNone)
  ∧ (("extra_fields" ∉ names schema_id_priority)
     ∧ has_store fresh_order fresh_store
     ∧ __setattr__ fresh_order "extra_fields" (PDict ∅) = Ok (with_store fresh_order ∅)
     ∧ has_store (with_store fresh_order ∅) ∅
     ∧ fresh_store !! "priority" = Some PNone
     ∧ (∅ : gmap string pyobj) !! "priority" = None).
Proof.
  repeat split; try (vm_compute; reflexivity).
  - apply (bool_decide_unpack _). by vm_compute.
  - apply (bool_decide_unpack _). by vm_compute.
Qed.

(** The guarded write evaluated. *)
Lemma store_write_eval (self : DynamicModel) (A : gmap string pyobj) (S : DynamicSchema)
    (attr_name : string) (value : pyobj) :
  has_store self A → has_schema self S →
  setattr_store_write self attr_name value
  = Ok (if decide ((attr_name ∉ meta_fields self) ∧ attr_name ≠ "_schema"
                   ∧ attr_name ∈ names S)
        then with_store self (<[attr_name := value]> A) else self).
Proof.
  intros Hstore Hschema. unfold setattr_store_write.
  rewrite (hasattr_store self A) by done. cbn [andb].
  destruct (decide (attr_name ∉ meta_fields self)) as [Hmeta|Hmeta].
  2:{ rewrite (bool_decide_eq_false_2 _ Hmeta). cbn [andb].
      rewrite decide_False; [done | by intros [? _]]. }
  rewrite (bool_decide_eq_true_2 _ Hmeta). cbn [andb].
  destruct (decide (attr_name = "_schema")) as [->|Hsch].
  { rewrite bool_decide_eq_false_2 by (intros H; apply H; left).
    rewrite decide_False; [done | by intros (_ & ? & _)]. }
  rewrite bool_decide_eq_true_2
    by (intros [?|H]%elem_of_cons; [done | by apply not_elem_of_nil in H]).
  rewrite (get_extra_fields_names_store self A S) by done. cbn [bind].
  destruct (decide (attr_name ∈ names S)) as [Hin|Hin].
  - rewrite (bool_decide_eq_true_2 _ Hin).
    rewrite (store_setitem_store self A) by done.
    by rewrite decide_True.
  - rewrite (bool_decide_eq_false_2 _ Hin).
    rewrite decide_False; [done | by intros (_ & _ & ?)].
Qed.

(** [__setattr__] is the guarded write followed by the parent's assignment. *)
Lemma setattr_stages (self : DynamicModel) (attr_name : string) (value : pyobj) :
  __setattr__ self attr_name value
  = (do self <- setattr_store_write self attr_name value;
     Ok (object_setattr self attr_name value)).
Proof. reflexivity. Qed.

(** C8 (assignment and the store), as the code has it.  On an instance whose
    store and schema are bound, the guarded write of lines 73-78 -- what
    [__setattr__] does for the dynamic storage before it hands the value to
    the parent's assignment -- raises nothing.  It leaves the instance, and
    so the store, as it is when the name is not declared, and also when the
    name is declared but names one of the fields of [_meta.fields] or is
    [_schema].  For a declared name that is neither it writes the value into
    the store and changes nothing else. *)
Theorem setattr_store_effect (self : DynamicModel) (A : gmap string pyobj) (S : DynamicSchema)
    (attr_name : string) (value : pyobj) :
  has_store self A → has_schema self S →
  ∃ self', setattr_store_write self attr_name value = Ok self'
    ∧ ((attr_name ∉ names S) ∨ attr_name ∈ meta_fields self ∨ attr_name = "_schema" →
       self' = self ∧ has_store self' A)
    ∧ (attr_name ∈ names S → attr_name ∉ meta_fields self → attr_name ≠ "_schema" →
       self' = with_store self (<[attr_name := value]> A)
       ∧ has_store self' (<[attr_name := value]> A)).
Proof.
  intros Hstore Hschema.
  rewrite (store_write_eval self A S) by done.
  eexists. split; [reflexivity | ]. split.
  - intros Hcase. rewrite decide_False; [done | ].
    intros (Hmeta & Hsch & Hin). by destruct Hcase as [?|[?|?]].
  - intros Hin Hmeta Hsch. rewrite decide_True by done.
    split; [done | apply has_store_with_store].
Qed.

Lemma setattr_store_effect_witness :
  ∃ self', setattr_store_write fresh_order "priority" (PInt 5) = Ok self'
    ∧ (("priority" ∉ names schema_id_priority) ∨ "priority" ∈ meta_fields fresh_order
         ∨ "priority" = "_schema" →
       self' = fresh_order ∧ has_store self' fresh_store)
    ∧ ("priority" ∈ names schema_id_priority → "priority" ∉ meta_fields fresh_order →
       "priority" ≠ "_schema" →
       self' = with_store fresh_order (<["priority" := PInt 5]> fresh_store)
       ∧ has_store self' (<["priority" := PInt 5]> fresh_store)).
Proof.
  apply (setattr_store_effect fresh_order fresh_store schema_id_priority); reflexivity.
Defined.

(** ** The form fields built by [DynamicForm.__init__] *)

Lemma od_get_set_eq {V} (key : string) (value : V) (d : list (string * V)) :
  od_get key (od_set key value d) = Some value.
Proof.
  induction d as [|[k v] d IH]; simpl.
  - by rewrite decide_True.
  - destruct (decide (k = key)) as [->|Hne]; simpl.
    + by rewrite decide_True.
    + by rewrite decide_False.
Qed.

Lemma od_get_set_ne {V} (key key' : string) (value : V) (d : list (string * V)) :
  key ≠ key' → od_get key' (od_set key value d) = od_get key' d.
Proof.
  intros Hne. induction d as [|[k v] d IH]; simpl.
  - by rewrite decide_False.
  - destruct (decide (k = key)) as [->|Hk]; simpl.
    + by rewrite !decide_False.
    + destruct (decide (k = key')); [done | apply IH].
Qed.

(** What the loop of lines 99-107 leaves under the name of each row. *)
Lemma init_loop (ugettext : string → string) (A : gmap string pyobj)
    (rows : list DynamicSchemaField) :
  ∀ self : DynamicForm,
    has_store (instance self) A →
    (∀ row, row ∈ rows → mapped (field_type row)) →
    ∃ fields',
      for_each (add_form_field ugettext) self (tuple_of A <$> rows)
      = Ok (mkForm (instance self) fields' (cleaned_data self) (has_errors self))
      ∧ (∀ key, key ∉ name <$> rows → od_get key fields' = od_get key (fields self))
      ∧ (NoDup (name <$> rows) →
         ∀ row, row ∈ rows →
           ∃ case, dict field_mapping !! field_type row = Some case
             ∧ od_get (name row) fields'
               = Some (forms.new (case_field case)
                         (if bool_decide (field_type row = "BooleanField")
                          then false else required row)
                         (case_widget case)
                         (default PNone (A !! name row))
                         (label_of ugettext (name row) (verbose_name row)))).
Proof.
  induction rows as [|row0 rows IH]; intros self Hstore Hmapped.
  - exists (fields self). split; [by destruct self | ].
    split; [done | ]. intros _ row Hrow. by apply elem_of_nil in Hrow.
  - rewrite fmap_cons. cbn [for_each].
    destruct (Hmapped row0) as [case0 Hcase0]; [left | ].
    unfold add_form_field at 1. unfold tuple_of at 1.
    rewrite Hcase0. cbn [bind].
    rewrite (get_extra_field_value_store (instance self) A) by done. cbn [bind].
    set (entry0 := forms.new _ _ _ _ _).
    set (self1 := mkForm _ _ _ _).
    destruct (IH self1) as (fields' & Hrun & Hother & Hrows).
    { done. }
    { intros row Hrow. apply Hmapped. by right. }
    exists fields'. split; [exact Hrun | ]. split.
    + intros key Hkey. rewrite fmap_cons in Hkey.
      apply not_elem_of_cons in Hkey as [Hne Hkey].
      rewrite Hother by done. simpl. by apply od_get_set_ne.
    + rewrite fmap_cons. intros [Hfresh Hnodup]%NoDup_cons row [->|Hrow]%elem_of_cons.
      * exists case0. split; [done | ].
        rewrite Hother by done. simpl. apply od_get_set_eq.
      * by apply Hrows.
Qed.

(** [DynamicForm.__init__] on an instance whose store and schema are bound
    and whose field types are all mapped. *)
Lemma init_result (ugettext : string → string) (self : DynamicForm)
    (A : gmap string pyobj) (S : DynamicSchema) :
  has_store (instance self) A → has_schema (instance self) S →
  NoDup (names S) →
  (∀ row, row ∈ fields_all S → mapped (field_type row)) →
  ∃ self', DynamicForm_init ugettext self = Ok self'
    ∧ instance self' = instance self
    ∧ ∀ row, row ∈ fields_all S →
        ∃ case, dict field_mapping !! field_type row = Some case
          ∧ od_get (name row) (fields self')
            = Some (forms.new (case_field case)
                      (if bool_decide (field_type row = "BooleanField")
                       then false else required row)
                      (case_widget case)
                      (default PNone (A !! name row))
                      (label_of ugettext (name row) (verbose_name row))).
Proof.
  intros Hstore Hschema Hnodup Hmapped. unfold DynamicForm_init.
  rewrite (get_extra_fields_store (instance self) A S) by done. cbn [bind].
  destruct (init_loop ugettext A (fields_all S)
              (mkForm (instance self) (fields self) (cleaned_data self) (has_errors self)))
    as (fields' & Hrun & _ & Hrows); [done | done | ].
  rewrite Hrun. eexists. split; [reflexivity | ]. split; [done | ].
  intros row Hrow. by apply Hrows.
Qed.

Example init_paid_due :
  DynamicForm_init untranslated paid_due_form
  = Ok (mkForm (instance paid_due_form)
          [ ("is_paid",
             forms.new forms.BooleanField false None PNone "Order paid");
            ("dueDate_utc",
             forms.new forms.CharField true (Some forms.Textarea)
               (PStr "tomorrow") "Duedate utc") ]
          ∅ false).
Proof. vm_compute. reflexivity. Qed.

(** C7 (Boolean requiredness override).  The form field built for a schema
    field of type [BooleanField] has [required = False] whatever the schema
    field declares; for every other type the declared flag is passed on. *)
Theorem boolean_required_override (ugettext : string → string) (self : DynamicForm)
    (A : gmap string pyobj) (S : DynamicSchema) :
  has_store (instance self) A → has_schema (instance self) S →
  NoDup (names S) →
  Forall (fun row => mapped (field_type row)) (fields_all S) →
  ∃ self', DynamicForm_init ugettext self = Ok self'
    ∧ ∀ row, row ∈ fields_all S →
        ∃ entry, od_get (name row) (fields self') = Some entry
          ∧ (field_type row = "BooleanField" → forms.required entry = false)
          ∧ (field_type row ≠ "BooleanField" → forms.required entry = required row).
Proof.
  intros Hstore Hschema Hnodup Hmapped. rewrite Forall_forall in Hmapped.
  destruct (init_result ugettext self A S Hstore Hschema Hnodup Hmapped)
    as (self' & Hrun & _ & Hrows).
  exists self'. split; [done | ].
  intros row Hrow. destruct (Hrows row Hrow) as (case & _ & Hget).
  eexists. split; [exact Hget | ]. simpl. split; intros Hty.
  - by rewrite bool_decide_eq_true_2.
  - by rewrite bool_decide_eq_false_2.
Qed.

Lemma boolean_required_override_witness :
  ∃ self', DynamicForm_init untranslated paid_due_form = Ok self'
    ∧ ∀ row, row ∈ fields_all schema_paid_due →
        ∃ entry, od_get (name row) (fields self') = Some entry
          ∧ (field_type row = "BooleanField" → forms.required entry = false)
          ∧ (field_type row ≠ "BooleanField" → forms.required entry = required row).
Proof.
  apply (boolean_required_override untranslated paid_due_form
           paid_due_store schema_paid_due);
    [reflexivity | reflexivity | by_evaluation | by_evaluation].
Defined.

(** ** Labels *)

Lemma split_not_nil (sep : ascii) (s : string) :
  ∃ piece pieces, split sep s = piece :: pieces.
Proof.
  destruct s as [|c rest]; simpl; [by eauto | ].
  destruct (decide (c = sep)); [by eauto | ].
  destruct (split sep rest); eauto.
Qed.

Lemma join_cons_String (sep : string) (c : ascii) (piece : string) (pieces : list string) :
  join sep (String c piece :: pieces) = String c (join sep (piece :: pieces)).
Proof. by destruct pieces. Qed.

Lemma join_split_underscores (s : string) :
  join " " (split "_" s) = underscores_to_spaces s.
Proof.
  induction s as [|c rest IH]; [done | ].
  cbn [split underscores_to_spaces].
  destruct (split_not_nil "_" rest) as (piece & pieces & Hsplit).
  rewrite Hsplit in *. rewrite <- IH.
  destruct (decide (c = "_"%char)).
  - done.
  - by rewrite join_cons_String.
Qed.

(** C9 as stated fails: [capitalize] also puts every character after the
    first in lower case.  The display name [Order Paid] gives the label
    [Order paid], and the field name [dueDate_utc] gives [Duedate utc], where
    the claim has [Order Paid] and [DueDate utc]. *)
Lemma label_claim_counterexample :
  ∃ self', DynamicForm_init untranslated paid_due_form = Ok self'
    ∧ forms.label <$> od_get "is_paid" (fields self') = Some "Order paid"
    ∧ label_as_claimed "is_paid" (Some "Order Paid") = "Order Paid"
    ∧ forms.label <$> od_get "dueDate_utc" (fields self') = Some "Duedate utc"
    ∧ label_as_claimed "dueDate_utc" None = "DueDate utc".
Proof. eexists. split; [apply init_paid_due | ]. by vm_compute. Qed.

(** C9 (label derivation), as the code has it.  The label of a form field is
    the capitalised translation of the display name when the schema field has
    a non-empty one, and otherwise the capitalised field name with every
    underscore replaced by a space.  For ASCII text, capitalising puts the
    first character in upper case and all the others in lower case; the
    statement is made for ASCII text. *)
Theorem label_derivation (ugettext : string → string) (self : DynamicForm)
    (A : gmap string pyobj) (S : DynamicSchema) :
  has_store (instance self) A → has_schema (instance self) S →
  NoDup (names S) →
  Forall (fun row => mapped (field_type row)) (fields_all S) →
  ∃ self', DynamicForm_init ugettext self = Ok self'
    ∧ ∀ row, row ∈ fields_all S →
        ∃ entry, od_get (name row) (fields self') = Some entry
          ∧ (∀ text, verbose_name row = Some text → text ≠ "" →
               is_ascii (ugettext text) = true →
               forms.label entry = capitalize (ugettext text))
          ∧ (verbose_name row = None ∨ verbose_name row = Some "" →
               is_ascii (name row) = true →
               forms.label entry = capitalize (underscores_to_spaces (name row))).
Proof.
  intros Hstore Hschema Hnodup Hmapped. rewrite Forall_forall in Hmapped.
  destruct (init_result ugettext self A S Hstore Hschema Hnodup Hmapped)
    as (self' & Hrun & _ & Hrows).
  exists self'. split; [done | ].
  intros row Hrow. destruct (Hrows row Hrow) as (case & _ & Hget).
  eexists. split; [exact Hget | ]. simpl. unfold label_of.
  rewrite join_split_underscores. split.
  - intros text -> Htext _. by rewrite bool_decide_eq_false_2.
  - by intros [-> | ->] _.
Qed.

Lemma label_derivation_witness :
  ∃ self', DynamicForm_init untranslated paid_due_form = Ok self'
    ∧ ∀ row, row ∈ fields_all schema_paid_due →
        ∃ entry, od_get (name row) (fields self') = Some entry
          ∧ (∀ text, verbose_name row = Some text → text ≠ "" →
               is_ascii (untranslated text) = true →
               forms.label entry = capitalize (untranslated text))
          ∧ (verbose_name row = None ∨ verbose_name row = Some "" →
               is_ascii (name row) = true →
               forms.label entry = capitalize (underscores_to_spaces (name row))).
Proof.
  apply (label_derivation untranslated paid_due_form paid_due_store schema_paid_due);
    [reflexivity | reflexivity | by_evaluation | by_evaluation].
Defined.

(** ** Saving a form *)

(** The loop of lines 117-119: the declared keys of the cleaned data are
    copied, the other keys are skipped. *)
Lemma cleaned_loop (cleaned : gmap string pyobj) (declared : list string)
    (keys : list string) :
  ∀ acc : gmap string pyobj,
    (∀ key, key ∈ keys → is_Some (cleaned !! key)) →
    ∃ acc',
      for_each (fun (extra_fields : gmap string pyobj) cleaned_key =>
          if bool_decide (cleaned_key ∈ declared) then
            do value <- py_getitem (PDict cleaned) cleaned_key;
            Ok (<[cleaned_key := value]> extra_fields)
          else Ok extra_fields)
        acc keys
      = Ok acc'
      ∧ ∀ key, acc' !! key =
               if decide (key ∈ keys ∧ key ∈ declared) then cleaned !! key
               else acc !! key.
Proof.
  induction keys as [|k0 keys IH]; intros acc Hkeys; cbn [for_each].
  - exists acc. split; [done | ]. intros key.
    rewrite decide_False; [done | ]. intros [H _]. by apply elem_of_nil in H.
  - destruct (Hkeys k0) as [v0 Hv0]; [left | ].
    set (acc1 := if bool_decide (k0 ∈ declared) then <[k0 := v0]> acc else acc).
    destruct (IH acc1) as (acc' & Hrun & Hlook).
    { intros key Hkey. apply Hkeys. by right. }
    exists acc'. split.
    + rewrite <- Hrun. unfold acc1.
      case_bool_decide; cbn [py_getitem bind]; [by rewrite Hv0 | done].
    + intros key. rewrite Hlook. unfold acc1.
      destruct (decide (key ∈ keys ∧ key ∈ declared)) as [[Hk Hd]|Hno].
      * rewrite decide_True; [done | ]. split; [by right | done].
      * destruct (decide (key = k0)) as [->|Hne].
        -- case_bool_decide as Hd.
           ++ rewrite lookup_insert_eq, decide_True; [done | ]. split; [left | done].
           ++ rewrite decide_False; [done | ]. by intros [_ ?].
        -- rewrite decide_False.
           ++ case_bool_decide; [by rewrite lookup_insert_ne | done].
           ++ intros [[?|?]%elem_of_cons ?]; [done | ]. by apply Hno.
Qed.

(** What [DynamicForm.save] leaves in the store, key by key. *)
Lemma save_result (self : DynamicForm) (A : gmap string pyobj) (S : DynamicSchema) :
  has_errors self = false →
  has_store (instance self) A → has_schema (instance self) S →
  ∃ A', DynamicForm_save self = Ok (with_store (instance self) A')
        ∧ ∀ key, A' !! key =
                 if decide (key ∈ names S) then cleaned_data self !! key else None.
Proof.
  intros Herr Hstore Hschema. unfold DynamicForm_save, ModelForm_save.
  rewrite Herr. cbn [bind].
  rewrite (get_extra_fields_store (instance self) A S) by done. cbn [bind py_iter].
  replace (map (fun '(name, _, _, _, _) => name) (tuple_of A <$> fields_all S))
    with (names S).
  2:{ unfold names. rewrite <- list_fmap_compose. by apply list_fmap_ext. }
  destruct (cleaned_loop (cleaned_data self) (names S)
              (map_to_list (cleaned_data self)).*1 ∅) as (A' & Hrun & Hlook).
  { intros key Hkey. apply list_elem_of_fmap in Hkey as ([k v] & -> & Hkey).
    apply elem_of_map_to_list in Hkey. eauto. }
  rewrite Hrun. cbn [bind].
  rewrite (setattr_eval (instance self) A S) by done.
  rewrite decide_False by (intros [H _]; apply H; left).
  exists A'. split; [done | ].
  intros key. rewrite Hlook, lookup_empty.
  destruct (decide (key ∈ names S)) as [Hd|Hd].
  - destruct (cleaned_data self !! key) as [v|] eqn:E.
    + rewrite decide_True; [done | ]. split; [ | done].
      apply list_elem_of_fmap. exists (key, v). split; [done | ].
      by apply elem_of_map_to_list.
    + by destruct (decide _).
  - rewrite decide_False; [done | ]. by intros [_ ?].
Qed.

(** C5 as stated fails: [b] is a declared field that the cleaned data do not
    mention, and after [save] the store has no entry for it any more -- its
    value [2] is gone, where the claim has it kept. *)
Lemma form_save_claim_counterexample :
  "b" ∈ names schema_ab
  ∧ cleaned_data form_a_only !! "b" = None
  ∧ has_store (instance form_a_only) ab_store
  ∧ ab_store !! "b" = Some (PInt 2)
  ∧ DynamicForm_save form_a_only = Ok (with_store ab_order {[ "a" := PInt 5 ]})
  ∧ ({[ "a" := PInt 5 ]} : gmap string pyobj) !! "b" = None.
Proof.
  split; [by_evaluation | ].
  repeat split; vm_compute; reflexivity.
Qed.

(** C5 (form save-back), as the code has it.  Saving a valid form replaces
    the store by a new dictionary that holds, for every declared field name
    present in the cleaned data, the value provided there, and nothing else:
    a declared name that the cleaned data do not mention is absent from the
    store afterwards, and so is every name that is not declared. *)
Theorem form_save_store (self : DynamicForm) (A : gmap string pyobj) (S : DynamicSchema) :
  has_errors self = false →
  has_store (instance self) A → has_schema (instance self) S →
  ∃ A', DynamicForm_save self = Ok (with_store (instance self) A')
    ∧ (∀ key value, key ∈ names S → cleaned_data self !! key = Some value →
         A' !! key = Some value)
    ∧ (∀ key, key ∈ names S → cleaned_data self !! key = None → A' !! key = None)
    ∧ (∀ key, key ∉ names S → A' !! key = None).
Proof.
  intros Herr Hstore Hschema.
  destruct (save_result self A S Herr Hstore Hschema) as (A' & Hrun & Hlook).
  exists A'. split; [done | ]. repeat split.
  - intros key value Hd Hc. by rewrite Hlook, decide_True, Hc.
  - intros key Hd Hc. by rewrite Hlook, decide_True, Hc.
  - intros key Hd. by rewrite Hlook, decide_False.
Qed.

Lemma form_save_store_witness :
  ∃ A', DynamicForm_save form_a_only = Ok (with_store (instance form_a_only) A')
    ∧ (∀ key value, key ∈ names schema_ab →
         cleaned_data form_a_only !! key = Some value → A' !! key = Some value)
    ∧ (∀ key, key ∈ names schema_ab → cleaned_data form_a_only !! key = None →
         A' !! key = None)
    ∧ (∀ key, key ∉ names schema_ab → A' !! key = None).
Proof. apply (form_save_store form_a_only ab_store schema_ab); reflexivity. Defined.

(** ** The schema table *)

(** C10 ([remove_field] is total).  [remove_field] never raises.  The rows it
    leaves are the rows that do not belong to this schema under that name, in
    their order; when the schema declares no field of that name the table is
    unchanged. *)
Theorem remove_field_total (self : DynamicSchema) (name_ : string) (db : table) :
  ∃ db', remove_field self name_ db = (Ok tt, db')
    ∧ (∀ row, row ∈ db' ↔ row ∈ db ∧ ¬ (schema_id row = pk self ∧ name row = name_))
    ∧ db' `sublist_of` db
    ∧ ((∀ row, row ∈ db → schema_id row = pk self → name row ≠ name_) → db' = db).
Proof.
  eexists. split; [reflexivity | ]. split; [ | split].
  - intros row. rewrite list_elem_of_filter. tauto.
  - apply sublist_filter.
  - intros Hnone. induction db as [|row db IH]; [done | ].
    rewrite filter_cons, decide_True.
    + f_equal. apply IH. intros row' Hrow'. apply Hnone. by right.
    + intros [Hs Hn]. by apply (Hnone row); [left | | ].
Qed.

Example remove_field_scenario :
  remove_field (mkSchema 1 7 "" [])  "a"
    [ mkField (Some 1) 1 "a" None "IntegerField" true;
      mkField (Some 2) 1 "b" None "IntegerField" true;
      mkField (Some 3) 2 "a" None "CharField" true ]
  = (Ok tt,
     [ mkField (Some 2) 1 "b" None "IntegerField" true;
       mkField (Some 3) 2 "a" None "CharField" true ]).
Proof. vm_compute. reflexivity. Qed.

(** C6 (invalid names), at the input of scenario D.  The validator declared
    on [name] refuses [bad name], but [add_field] saves the row without
    running it: [save] calls [clean], which returns at once for a row
    without [id], and [models.Model.save] validates nothing. *)
Theorem add_field_bad_name :
  name_validator "bad name"
  = Raise (ValidationError
             "Name should contain only alphanumeric characters and underscores.")
  ∧ add_field (mkSchema 1 7 "" []) "bad name" "IntegerField" []
    = (Ok (mkField (Some 1) 1 "bad name" None "IntegerField" true),
       [ mkField (Some 1) 1 "bad name" None "IntegerField" true ]).
Proof. split; vm_compute; reflexivity. Qed.

(** [add_field] accepts any name the schema does not have yet. *)
Lemma add_field_any_name (self : DynamicSchema) (name_ type : string) (db : table) :
  (∀ row, row ∈ db → schema_id row = pk self → name row ≠ name_) →
  add_field self name_ type db
  = (Ok (mkField (Some (next_id db)) (pk self) name_ None type true),
     db ++ [mkField (Some (next_id db)) (pk self) name_ None type true])%list.
Proof.
  intros Hfree. unfold add_field, DynamicSchemaField_save.
  cbn [DynamicSchemaField_clean id]. unfold Model_save, unique_together_taken.
  rewrite bool_decide_eq_false_2; [done | ].
  rewrite Exists_exists. intros (row & Hrow & _ & Hs & Hn). simpl in *.
  by apply (Hfree row).
Qed.

(** ** Saving a stored field *)

Lemma objects_get_Ok (key : Z) (db : table) (old : DynamicSchemaField) :
  objects_get key db = Ok old → id old = Some key ∧ old ∈ db.
Proof.
  unfold objects_get. intros Hget.
  destruct (filter _ db) as [|row [|row' rest]] eqn:Hfilter; try done.
  injection Hget as ->.
  assert (Hin : old ∈ filter (fun row => id row = Some key) db)
    by (rewrite Hfilter; left).
  by apply list_elem_of_filter in Hin.
Qed.

Lemma field_dict_get (self : DynamicSchemaField) :
  dict_get (field_dict self) "id" = from_option PInt PNone (id self)
  ∧ dict_get (field_dict self) "schema" = PNone
  ∧ dict_get (field_dict self) "name" = PStr (name self)
  ∧ dict_get (field_dict self) "field_type" = PStr (field_type self)
  ∧ dict_get (field_dict self) "required" = PBool (required self).
Proof. repeat split. Qed.

(** [clean] on a stored row: the comparison of [id] and of [schema] never
    differs, so the call raises exactly when [name], [field_type] or
    [required] differs from the stored value. *)
Lemma clean_stored (self old : DynamicSchemaField) (key : Z) (db : table) :
  objects_get key db = Ok old → key ≠ 0 → id self = Some key →
  DynamicSchemaField_clean self db
  = if decide (name old = name self ∧ field_type old = field_type self
               ∧ required old = required self)
    then Ok tt else Raise (ValidationError "%s value cannot be modified").
Proof.
  intros Hget Hkey Hid. unfold DynamicSchemaField_clean.
  rewrite Hid. cbn [truthy]. rewrite (proj2 (Z.eqb_neq key 0) Hkey).
  cbn [negb]. rewrite Hget. cbn [bind].
  change (list_remove "verbose_name" field_meta_names)
    with (Ok ["id"; "schema"; "name"; "field_type"; "required"]).
  cbn [bind for_each].
  destruct (field_dict_get old) as (-> & -> & -> & -> & ->).
  destruct (field_dict_get self) as (-> & -> & -> & -> & ->).
  apply objects_get_Ok in Hget as [-> _]. rewrite Hid.
  unfold py_eq. cbn [py_int_view from_option].
  rewrite !bool_decide_eq_true_2 by done. cbn [negb bind].
  destruct (decide (name old = name self)) as [Hn|Hn].
  2:{ rewrite bool_decide_eq_false_2 by congruence. cbn [negb bind].
      rewrite decide_False; [done | by intros [? _]]. }
  rewrite bool_decide_eq_true_2 by congruence. cbn [negb bind].
  destruct (decide (field_type old = field_type self)) as [Ht|Ht].
  2:{ rewrite bool_decide_eq_false_2 by congruence. cbn [negb bind].
      rewrite decide_False; [done | by intros (_ & ? & _)]. }
  rewrite bool_decide_eq_true_2 by congruence. cbn [negb bind].
  destruct (decide (required old = required self)) as [Hr|Hr].
  - rewrite bool_decide_eq_true_2 by congruence. cbn [negb].
    by rewrite decide_True.
  - rewrite bool_decide_eq_false_2.
    + cbn [negb]. rewrite decide_False; [done | by intros (_ & _ & ?)].
    + intros [=Hb]. apply Hr. by destruct (required old), (required self).
Qed.

(** X20.  A stored field saved with another [name], [field_type] or
    [required] flag is refused with [ValidationError], and the table stays
    as it was. *)
Lemma save_frozen_refused (self old : DynamicSchemaField) (key : Z) (db : table) :
  objects_get key db = Ok old → key ≠ 0 → id self = Some key →
  name self ≠ name old ∨ field_type self ≠ field_type old
    ∨ required self ≠ required old →
  DynamicSchemaField_save self db
  = (Raise (ValidationError "%s value cannot be modified"), db).
Proof.
  intros Hget Hkey Hid Hchanged. unfold DynamicSchemaField_save.
  rewrite (clean_stored self old key db) by done.
  rewrite decide_False; [done | ].
  intros (Hn & Ht & Hr). destruct Hchanged as [?|[?|?]]; congruence.
Qed.

(** X21.  A stored field saved with another display name only is written
    back: the row of that primary key takes the new display name, when the
    table holds no other row with the schema and name of the field. *)
Lemma save_verbose_name_only (old : DynamicSchemaField) (key : Z) (db : table)
    (text : option string) :
  objects_get key db = Ok old → key ≠ 0 →
  unique_together_taken old db = false →
  let self := mkField (id old) (schema_id old) (name old) text
                (field_type old) (required old) in
  DynamicSchemaField_save self db
  = (Ok self, (fun row => if decide (id row = Some key) then self else row) <$> db).
Proof.
  intros Hget Hkey Hunique self. unfold DynamicSchemaField_save.
  destruct (objects_get_Ok key db old Hget) as [Hid Hin].
  rewrite (clean_stored self old key db) by done.
  rewrite decide_True by done.
  unfold Model_save. change (unique_together_taken self db)
    with (unique_together_taken old db).
  rewrite Hunique. change (id self) with (id old). rewrite Hid.
  rewrite bool_decide_eq_true_2; [done | ].
  apply Exists_exists. eauto.
Qed.

Example save_changed_field_type :
  DynamicSchemaField_save
    (mkField (Some 1) 1 "priority" None "CharField" true) [priority_row]
  = (Raise (ValidationError "%s value cannot be modified"), [priority_row]).
Proof. vm_compute. reflexivity. Qed.

Example save_changed_verbose_name :
  DynamicSchemaField_save
    (mkField (Some 1) 1 "priority" (Some "Priority of the order") "IntegerField" true)
    [priority_row]
  = (Ok (mkField (Some 1) 1 "priority" (Some "Priority of the order") "IntegerField" true),
     [ mkField (Some 1) 1 "priority" (Some "Priority of the order") "IntegerField" true ]).
Proof. vm_compute. reflexivity. Qed.

(** C4 (field immutability), at the input where the code departs from it.
    The stored field [priority] is saved with another schema and nothing
    else changed.  [clean] looks the foreign key up under ['schema'], a key
    the instance dictionary does not have (the column is [schema_id]), so it
    compares [None] with [None]; the save goes through and the stored row
    now belongs to schema 2. *)
Theorem save_changed_schema :
  objects_get 1 [priority_row] = Ok priority_row
  ∧ dict_get (field_dict priority_row) "schema" = PNone
  ∧ dict_get (field_dict (mkField (Some 1) 2 "priority" None "IntegerField" true)) "schema"
    = PNone
  ∧ DynamicSchemaField_save
      (mkField (Some 1) 2 "priority" None "IntegerField" true) [priority_row]
    = (Ok (mkField (Some 1) 2 "priority" None "IntegerField" true),
       [ mkField (Some 1) 2 "priority" None "IntegerField" true ]).
Proof. repeat split; vm_compute; reflexivity. Qed.

(** * Further properties of the module *)

(** ** Reading attributes *)

(** X1.  [__getattr__], the hook Python calls when the ordinary lookup of an
    attribute finds nothing, answers with the stored value for every key of
    the store; and after synchronisation it answers for every declared field
    name, with the value the store held before or with [None]. *)
Theorem getattr_hook_after_sync (self : DynamicModel) (A : gmap string pyobj) (S : DynamicSchema) :
  has_store self A → has_schema self S →
  (∀ key value, A !! key = Some value → __getattr__ self key = Ok value)
  ∧ ∃ self', _sync_with_schema self = Ok self'
      ∧ ∀ field_name, field_name ∈ names S →
          __getattr__ self' field_name = Ok (default PNone (A !! field_name)).
Proof.
  intros Hstore Hschema.
  assert (Hhit : ∀ (inst : DynamicModel) (B : gmap string pyobj) key value,
    has_store inst B → B !! key = Some value → __getattr__ inst key = Ok value).
  { intros inst B key value HB Hkey. unfold __getattr__.
    rewrite (get_extra_fields_attr_store inst B) by done. cbn [bind py_contains].
    rewrite bool_decide_eq_true_2 by eauto. cbn [py_getitem]. by rewrite Hkey. }
  split; [intros key value; by apply Hhit | ].
  destruct (sync_result self A S Hstore Hschema) as (A' & Hsync & Hlook).
  exists (with_store self A'). split; [done | ].
  intros field_name Hin. apply (Hhit _ A'); [apply has_store_with_store | ].
  by rewrite Hlook, decide_True.
Qed.

Lemma getattr_hook_after_sync_witness :
  (∀ key value, stale_store !! key = Some value → __getattr__ stale_order key = Ok value)
  ∧ ∃ self', _sync_with_schema stale_order = Ok self'
      ∧ ∀ field_name, field_name ∈ names schema_ab →
          __getattr__ self' field_name = Ok (default PNone (stale_store !! field_name)).
Proof. apply (getattr_hook_after_sync stale_order stale_store schema_ab); reflexivity. Defined.

(** X2.  [get_extra_fields] yields one tuple per row of the schema, in the
    order of the rows, with the stored value of the field or [None] when the
    store has no such key; it does not change the instance, and
    [get_extra_fields_names] gives the names of the rows in the same order. *)
Theorem get_extra_fields_yields (self : DynamicModel) (A : gmap string pyobj) (S : DynamicSchema) :
  has_store self A → has_schema self S →
  get_extra_fields self
  = Ok ((fun field => (name field, verbose_name field, field_type field, required field,
                       default PNone (A !! name field))) <$> fields_all S, self)
  ∧ get_extra_fields_names self = Ok (name <$> fields_all S, self).
Proof.
  intros Hstore Hschema. split.
  - by rewrite (get_extra_fields_store self A S).
  - by rewrite (get_extra_fields_names_store self A S).
Qed.

Lemma get_extra_fields_yields_witness :
  get_extra_fields stale_order
  = Ok ((fun field => (name field, verbose_name field, field_type field, required field,
                       default PNone (stale_store !! name field))) <$> fields_all schema_ab,
        stale_order)
  ∧ get_extra_fields_names stale_order = Ok (name <$> fields_all schema_ab, stale_order).
Proof. apply (get_extra_fields_yields stale_order stale_store schema_ab); reflexivity. Defined.

(** X3.  [get_schema] caches: once a call has returned, the object returned
    is true in a test, and a further call returns the same object and leaves
    the instance as it is. *)
Theorem get_schema_cached_again (self self' : DynamicModel) (schema : pyobj) :
  get_schema self = Ok (schema, self') →
  truthy schema = true ∧ get_schema self' = Ok (schema, self').
Proof.
  unfold get_schema. destruct (getattr self "_schema") as [cached|e] eqn:Hget; [ | done].
  cbn [bind]. destruct (truthy cached) eqn:Htruthy; cbn [negb]; intros [= <- <-].
  - split; [done | ]. by rewrite Hget; cbn [bind]; rewrite Htruthy.
  - split; [done | ]. unfold getattr. cbn [inst_dict object_setattr].
    by rewrite lookup_insert_eq.
Qed.

Lemma get_schema_cached_again_witness :
  truthy (PSchema schema_ab) = true
  ∧ get_schema stale_order = Ok (PSchema schema_ab, stale_order).
Proof. apply (get_schema_cached_again stale_order stale_order). reflexivity. Defined.

(** ** Writing attributes *)

(** X4.  While [extra_fields] is not bound yet -- as at the start of
    [__init__] -- an assignment is an ordinary one: it raises nothing, reads
    no schema and binds the attribute. *)
Theorem setattr_before_store (self : DynamicModel) (attr_name : string) (value : pyobj) :
  inst_dict self !! "extra_fields" = None →
  __setattr__ self attr_name value = Ok (object_setattr self attr_name value).
Proof.
  intros Hnone. unfold __setattr__, hasattr, getattr, __getattr__, get_extra_fields_attr.
  by rewrite Hnone.
Qed.

Lemma setattr_before_store_witness :
  __setattr__ (mkModel ["id"] schema_ab ∅) "a" (PInt 1)
  = Ok (object_setattr (mkModel ["id"] schema_ab ∅) "a" (PInt 1)).
Proof. apply setattr_before_store. reflexivity. Defined.





(** ** Construction *)

Lemma get_extra_fields_names_unresolved (self : DynamicModel) (A : gmap string pyobj) :
  has_store self A → inst_dict self !! "_schema" = Some PNone →
  get_extra_fields_names self
  = Ok (names (stored_schema self),
        object_setattr self "_schema" (PSchema (stored_schema self))).
Proof.
  intros Hstore Hnone.
  unfold get_extra_fields_names, get_extra_fields, get_schema, getattr.
  rewrite Hnone. cbn [bind truthy negb schema_fields].
  rewrite (get_extra_fields_loop _ A).
  - cbn [bind app]. do 2 f_equal. unfold names.
    rewrite <- list_fmap_compose. by apply list_fmap_ext.
  - unfold has_store; simpl. by rewrite lookup_insert_ne.
Qed.

(** [__setattr__] evaluated from what [get_extra_fields_names] returns. *)
Lemma setattr_eval_names (self self1 : DynamicModel) (A : gmap string pyobj)
    (declared : list string) (attr_name : string) (value : pyobj) :
  has_store self A →
  get_extra_fields_names self = Ok (declared, self1) → has_store self1 A →
  __setattr__ self attr_name value
  = Ok (object_setattr
          (if decide ((attr_name ∉ meta_fields self) ∧ attr_name ≠ "_schema")
           then if decide (attr_name ∈ declared)
                then with_store self1 (<[attr_name := value]> A) else self1
           else self)
          attr_name value).
Proof.
  intros Hstore Hnames Hstore1. unfold __setattr__.
  rewrite (hasattr_store self A) by done. cbn [andb].
  destruct (decide (attr_name ∉ meta_fields self)) as [Hmeta|Hmeta].
  2:{ rewrite (bool_decide_eq_false_2 _ Hmeta). cbn [andb bind].
      rewrite decide_False; [done | by intros [? _]]. }
  rewrite (bool_decide_eq_true_2 _ Hmeta). cbn [andb].
  destruct (decide (attr_name = "_schema")) as [->|Hsch].
  { rewrite bool_decide_eq_false_2 by (intros H; apply H; left).
    cbn [bind]. rewrite decide_False; [done | by intros [_ ?]]. }
  rewrite bool_decide_eq_true_2
    by (intros [?|H]%elem_of_cons; [done | by apply not_elem_of_nil in H]).
  rewrite Hnames. cbn [bind]. rewrite decide_True by done.
  destruct (decide (attr_name ∈ declared)) as [Hin|Hin].
  - rewrite (bool_decide_eq_true_2 _ Hin).
    by rewrite (store_setitem_store self1 A) by done.
  - by rewrite (bool_decide_eq_false_2 _ Hin).
Qed.

Lemma setattr_under_construction (self : DynamicModel) (attr_name : string) (value : pyobj) :
  under_construction self →
  attr_name ≠ "_schema" →
  (attr_name = "extra_fields" → is_dict value = true) →
  ∃ self', __setattr__ self attr_name value = Ok self'
    ∧ under_construction self'
    ∧ own_fields self' = own_fields self
    ∧ stored_schema self' = stored_schema self
    ∧ (attr_name = "extra_fields" ∨ (∃ A, inst_dict self !! "extra_fields" = Some (PDict A)) →
       ∃ A, inst_dict self' !! "extra_fields" = Some (PDict A)).
Proof.
  intros [Hsch Hst] Hne Hdict.
  assert (Hfinal : ∀ inner : DynamicModel,
    own_fields inner = own_fields self → stored_schema inner = stored_schema self →
    (inst_dict inner !! "_schema" = Some PNone
     ∨ inst_dict inner !! "_schema" = Some (PSchema (stored_schema self))) →
    (attr_name ≠ "extra_fields" →
       (inst_dict self !! "extra_fields" = None ∧ inst_dict inner !! "extra_fields" = None)
       ∨ ∃ A, inst_dict inner !! "extra_fields" = Some (PDict A)) →
    under_construction (object_setattr inner attr_name value)
    ∧ own_fields (object_setattr inner attr_name value) = own_fields self
    ∧ stored_schema (object_setattr inner attr_name value) = stored_schema self
    ∧ (attr_name = "extra_fields" ∨ (∃ A, inst_dict self !! "extra_fields" = Some (PDict A)) →
       ∃ A, inst_dict (object_setattr inner attr_name value) !! "extra_fields"
            = Some (PDict A))).
  { intros inner Hown Hstored Hs Hx. unfold under_construction. simpl.
    rewrite Hstored. rewrite (lookup_insert_ne _ attr_name "_schema") by done.
    destruct (decide (attr_name = "extra_fields")) as [->|Hnx].
    - rewrite lookup_insert_eq.
      destruct value; try (by specialize (Hdict eq_refl)).
      repeat split; eauto.
    - rewrite lookup_insert_ne by done.
      destruct (Hx Hnx) as [[Hn1 Hn2]|Hb].
      + repeat split; [done | by left | done | ].
        intros [?|[A HA]]; [done | congruence].
      + repeat split; eauto. }
  destruct Hst as [Hnone|[A HA]].
  - rewrite setattr_before_store by done. eexists. split; [reflexivity | ].
    apply Hfinal; [done | done | done | ]. intros _. by left.
  - destruct Hsch as [HN|HS].
    + rewrite (setattr_eval_names self
                 (object_setattr self "_schema" (PSchema (stored_schema self)))
                 A (names (stored_schema self)));
        [ | done | by apply (get_extra_fields_names_unresolved self A)
          | by unfold has_store; simpl; rewrite lookup_insert_ne ].
      eexists. split; [reflexivity | ].
      destruct (decide _) as [_|_]; [destruct (decide _) as [_|_] | ].
      * apply Hfinal; [done | done | | ].
        -- right. simpl. rewrite lookup_insert_ne by done. apply lookup_insert_eq.
        -- intros _. right. eexists. simpl. apply lookup_insert_eq.
      * apply Hfinal; [done | done | | ].
        -- right. simpl. apply lookup_insert_eq.
        -- intros _. right. exists A. simpl. by rewrite lookup_insert_ne.
      * apply Hfinal; [done | done | by left | ]. intros _. right. eauto.
    + rewrite (setattr_eval self A (stored_schema self)) by done.
      eexists. split; [reflexivity | ].
      destruct (decide _) as [_|_].
      * apply Hfinal; [done | done | | ].
        -- right. simpl. by rewrite lookup_insert_ne.
        -- intros _. right. eexists. simpl. apply lookup_insert_eq.
      * apply Hfinal; [done | done | by right | ]. intros _. right. eauto.
Qed.

Lemma init_assignments (assignments : list (string * pyobj)) :
  ∀ self : DynamicModel,
    under_construction self →
    Forall (fun kv => kv.1 ≠ "_schema" ∧ (kv.1 = "extra_fields" → is_dict kv.2 = true))
      assignments →
    ∃ self',
      for_each (fun self '(attr_name, value) => __setattr__ self attr_name value)
        self assignments = Ok self'
      ∧ under_construction self'
      ∧ own_fields self' = own_fields self
      ∧ stored_schema self' = stored_schema self
      ∧ ("extra_fields" ∈ assignments.*1
         ∨ (∃ A, inst_dict self !! "extra_fields" = Some (PDict A)) →
         ∃ A, inst_dict self' !! "extra_fields" = Some (PDict A)).
Proof.
  induction assignments as [|[k v] rest IH]; intros self Huc Hall; cbn [for_each].
  - exists self. do 4 (split; [done | ]).
    intros [H|H]; [by apply elem_of_nil in H | done].
  - apply Forall_cons in Hall as [[Hk Hv] Hall]. simpl in Hk, Hv.
    destruct (setattr_under_construction self k v Huc Hk Hv)
      as (self1 & Hrun1 & Huc1 & Hown1 & Hst1 & Hb1).
    rewrite Hrun1. cbn [bind].
    destruct (IH self1 Huc1 Hall) as (self' & Hrun & Huc' & Hown & Hst & Hb).
    exists self'. split; [done | ]. split; [done | ].
    split; [congruence | ]. split; [congruence | ].
    intros Hcase. apply Hb. rewrite fmap_cons in Hcase. simpl in Hcase.
    destruct Hcase as [[<-|?]%elem_of_cons|Hbound].
    + right. apply Hb1. by left.
    + by left.
    + right. apply Hb1. by right.
Qed.

Lemma keys_of_lookup (A' : gmap string pyobj) (declared : list string)
    (value : string → pyobj) :
  (∀ k, A' !! k = if decide (k ∈ declared) then Some (value k) else None) →
  dom A' = list_to_set declared.
Proof.
  intros Hlook. apply set_eq. intros k.
  rewrite elem_of_dom, elem_of_list_to_set, Hlook.
  destruct (decide (k ∈ declared)) as [Hk|Hk].
  - split; eauto.
  - split; [by intros [? ?] | done].
Qed.

(** X7.  Construction leaves the instance in step with its schema.  When
    [models.Model.__init__] binds [extra_fields] to a dictionary (and binds
    nothing to [_schema]), [__init__] returns an instance whose [_schema] is
    the stored schema and whose store has exactly the declared names as keys. *)
Theorem init_in_step (own : list string) (stored : DynamicSchema)
    (assignments : list (string * pyobj)) :
  Forall (fun kv => kv.1 ≠ "_schema" ∧ (kv.1 = "extra_fields" → is_dict kv.2 = true))
    assignments →
  "extra_fields" ∈ assignments.*1 →
  ∃ self A, DynamicModel_init own stored assignments = Ok self
    ∧ has_store self A ∧ has_schema self stored
    ∧ dom A = list_to_set (names stored)
    ∧ own_fields self = own ∧ stored_schema self = stored.
Proof.
  intros Hall Hbound. unfold DynamicModel_init.
  rewrite setattr_schema. cbn [bind].
  set (self0 := object_setattr (mkModel own stored ∅) "_schema" PNone).
  destruct (init_assignments assignments self0) as (self1 & Hrun & Huc & Hown & Hst & Hb);
    [ | done | ].
  { split; [by left | by left]. }
  rewrite Hrun. cbn [bind].
  destruct Hb as [A HA]; [by left | ].
  change (stored_schema self0) with stored in Hst.
  change (own_fields self0) with own in Hown.
  unfold under_construction in Huc. rewrite Hst in Huc.
  destruct Huc as [[HN|HS] _].
  - unfold get_schema, getattr. rewrite HN. cbn [bind truthy negb]. rewrite Hst.
    set (self2 := object_setattr self1 "_schema" (PSchema stored)).
    assert (Hschema2 : has_schema self2 stored).
    { unfold has_schema; simpl. apply lookup_insert_eq. }
    destruct (sync_result self2 A stored) as (A' & Hsync & Hlook); [ | done | ].
    { unfold has_store; simpl. by rewrite lookup_insert_ne. }
    rewrite Hsync. exists (with_store self2 A'), A'.
    split; [done | ]. split; [apply has_store_with_store | ].
    split; [by apply has_schema_with_store | ].
    split; [by apply (keys_of_lookup _ _ _ Hlook) | done].
  - unfold get_schema, getattr. rewrite HS. cbn [bind truthy negb].
    destruct (sync_result self1 A stored) as (A' & Hsync & Hlook); [done | done | ].
    rewrite Hsync. exists (with_store self1 A'), A'.
    split; [done | ]. split; [apply has_store_with_store | ].
    split; [by apply has_schema_with_store | ].
    split; [by apply (keys_of_lookup _ _ _ Hlook) | done].
Qed.

Lemma init_in_step_witness :
  ∃ self A,
    DynamicModel_init ["id"; "customer"] schema_ab
      [ ("id", PInt 10); ("extra_fields", PDict stale_store); ("customer_id", PInt 4) ]
    = Ok self
    ∧ has_store self A ∧ has_schema self schema_ab
    ∧ dom A = list_to_set (names schema_ab)
    ∧ own_fields self = ["id"; "customer"] ∧ stored_schema self = schema_ab.
Proof. apply init_in_step; by_evaluation. Defined.

Example init_scenario :
  DynamicModel_init ["id"; "customer"] schema_ab
    [ ("id", PInt 10); ("extra_fields", PDict stale_store); ("customer_id", PInt 4) ]
  = Ok (mkModel ["id"; "customer"] schema_ab
          {[ "_schema" := PSchema schema_ab; "id" := PInt 10;
             "extra_fields" := PDict {[ "a" := PInt 1; "b" := PInt 2 ]};
             "customer_id" := PInt 4 ]}).
Proof. vm_compute. reflexivity. Qed.

(** X8.  Synchronisation does not repair a store that is not a container:
    with [extra_fields] bound to [None], a number, a Boolean or a model
    object, [_sync_with_schema] raises [TypeError], whatever the schema. *)
Theorem sync_not_a_container (self : DynamicModel) (S : DynamicSchema) (o : pyobj) :
  has_schema self S →
  inst_dict self !! "extra_fields" = Some o →
  is_dict o = false → (∀ s, o ≠ PStr s) →
  _sync_with_schema self = Raise TypeError.
Proof.
  intros Hschema Ho Hdict Hstr.
  unfold _sync_with_schema, get_extra_fields_names, get_extra_fields.
  rewrite (get_schema_cached self S) by done. cbn [bind schema_fields].
  assert (Hattr : get_extra_fields_attr self = Ok o)
    by (unfold get_extra_fields_attr; by rewrite Ho).
  destruct (fields_all S) as [|row rows]; cbn [for_each bind map].
  - rewrite Hattr. cbn [bind].
    destruct o; try done. by destruct (Hstr s).
  - unfold get_extra_field_value. rewrite Hattr. cbn [bind].
    destruct o; try done. by destruct (Hstr s).
Qed.

Lemma sync_not_a_container_witness :
  _sync_with_schema
    (mkModel ["id"] schema_ab {[ "extra_fields" := PNone; "_schema" := PSchema schema_ab ]})
  = Raise TypeError.
Proof.
  apply (sync_not_a_container _ schema_ab PNone);
    [reflexivity | reflexivity | reflexivity | discriminate].
Defined.

(** ** More on the form *)

Lemma for_each_app {A S} (body : S → A → result S) (s : S) (l1 l2 : list A) :
  for_each body s (l1 ++ l2) = do s' <- for_each body s l1; for_each body s' l2.
Proof.
  revert s. induction l1 as [|x l1 IH]; intros s; cbn [for_each app bind]; [done | ].
  destruct (body s x); cbn [bind]; [apply IH | done].
Qed.

(** X9.  The form field built for a row shows the stored value of the field
    as its initial value ([None] when the store has no such key) and takes
    its class and widget from the entry of [field_mapping] for the type of
    the row. *)
Theorem form_field_of_row (ugettext : string → string) (self : DynamicForm)
    (A : gmap string pyobj) (S : DynamicSchema) :
  has_store (instance self) A → has_schema (instance self) S →
  NoDup (names S) →
  Forall (fun row => mapped (field_type row)) (fields_all S) →
  ∃ self', DynamicForm_init ugettext self = Ok self'
    ∧ ∀ row, row ∈ fields_all S →
        ∃ entry case, od_get (name row) (fields self') = Some entry
          ∧ dict field_mapping !! field_type row = Some case
          ∧ forms.initial entry = default PNone (A !! name row)
          ∧ forms.cls entry = case_field case
          ∧ forms.widget entry = case_widget case.
Proof.
  intros Hstore Hschema Hnodup Hmapped. rewrite Forall_forall in Hmapped.
  destruct (init_result ugettext self A S Hstore Hschema Hnodup Hmapped)
    as (self' & Hrun & _ & Hrows).
  exists self'. split; [done | ].
  intros row Hrow. destruct (Hrows row Hrow) as (case & Hcase & Hget).
  eexists _, case. split; [exact Hget | ]. by repeat split.
Qed.

Lemma form_field_of_row_witness :
  ∃ self', DynamicForm_init untranslated paid_due_form = Ok self'
    ∧ ∀ row, row ∈ fields_all schema_paid_due →
        ∃ entry case, od_get (name row) (fields self') = Some entry
          ∧ dict field_mapping !! field_type row = Some case
          ∧ forms.initial entry = default PNone (paid_due_store !! name row)
          ∧ forms.cls entry = case_field case
          ∧ forms.widget entry = case_widget case.
Proof.
  apply (form_field_of_row untranslated paid_due_form paid_due_store schema_paid_due);
    [reflexivity | reflexivity | by_evaluation | by_evaluation].
Defined.

(** X10.  A row whose field type is not a key of [field_mapping] makes
    [DynamicForm.__init__] raise [KeyError] with that type: the first such
    row in the order of the schema decides. *)
Theorem form_unmapped_type (ugettext : string → string) (self : DynamicForm)
    (A : gmap string pyobj) (S : DynamicSchema)
    (before after : list DynamicSchemaField) (row : DynamicSchemaField) :
  has_store (instance self) A → has_schema (instance self) S →
  fields_all S = (before ++ row :: after)%list →
  Forall (fun row => mapped (field_type row)) before →
  dict field_mapping !! field_type row = None →
  DynamicForm_init ugettext self = Raise (KeyError (field_type row)).
Proof.
  intros Hstore Hschema Hrows Hbefore Hnone. unfold DynamicForm_init.
  rewrite (get_extra_fields_store (instance self) A S) by done. cbn [bind].
  rewrite Hrows, fmap_app, for_each_app.
  rewrite Forall_forall in Hbefore.
  destruct (init_loop ugettext A before
              (mkForm (instance self) (fields self) (cleaned_data self) (has_errors self)))
    as (fields' & Hrun & _); [done | done | ].
  rewrite Hrun. cbn [bind fmap list_fmap for_each].
  unfold add_form_field at 1. unfold tuple_of at 1. by rewrite Hnone.
Qed.

Lemma form_unmapped_type_witness :
  DynamicForm_init untranslated
    (mkForm
       (mkModel ["id"]
          (mkSchema 4 7 "" [ mkField (Some 7) 4 "due" None "DateField" true ])
          {[ "extra_fields" := PDict {[ "due" := PNone ]};
             "_schema" :=
               PSchema (mkSchema 4 7 "" [ mkField (Some 7) 4 "due" None "DateField" true ]) ]})
       [] ∅ false)
  = Raise (KeyError "DateField").
Proof.
  apply (form_unmapped_type untranslated _ {[ "due" := PNone ]}
           (mkSchema 4 7 "" [ mkField (Some 7) 4 "due" None "DateField" true ])
           [] [] (mkField (Some 7) 4 "due" None "DateField" true));
    [reflexivity | reflexivity | reflexivity | constructor | reflexivity].
Defined.

(** X11.  [DynamicForm.__init__] leaves alone what is not a dynamic field:
    the instance, the cleaned data, and every form field whose name is not a
    declared field name. *)
Theorem form_init_frame (ugettext : string → string) (self self' : DynamicForm)
    (A : gmap string pyobj) (S : DynamicSchema) :
  has_store (instance self) A → has_schema (instance self) S →
  DynamicForm_init ugettext self = Ok self' →
  instance self' = instance self
  ∧ cleaned_data self' = cleaned_data self
  ∧ has_errors self' = has_errors self
  ∧ ∀ key, key ∉ names S → od_get key (fields self') = od_get key (fields self).
Proof.
  intros Hstore Hschema. unfold DynamicForm_init.
  rewrite (get_extra_fields_store (instance self) A S) by done. cbn [bind].
  set (start := mkForm (instance self) (fields self) (cleaned_data self) (has_errors self)).
  assert (Hgen : ∀ rows (form form' : DynamicForm),
    has_store (instance form) A →
    for_each (add_form_field ugettext) form (tuple_of A <$> rows) = Ok form' →
    instance form' = instance form ∧ cleaned_data form' = cleaned_data form
    ∧ has_errors form' = has_errors form
    ∧ ∀ key, key ∉ name <$> rows → od_get key (fields form') = od_get key (fields form)).
  { induction rows as [|row rows IH]; intros form form' Hst; cbn [fmap list_fmap for_each].
    - by intros [= <-].
    - unfold add_form_field at 1. unfold tuple_of at 1.
      destruct (dict field_mapping !! field_type row) as [case|]; [ | done].
      cbn [bind]. rewrite (get_extra_field_value_store (instance form) A) by done.
      cbn [bind]. intros Hrun. apply IH in Hrun as (Hi & Hc & He & Hf); [ | done].
      simpl in Hi, Hc, He, Hf. repeat split; try done.
      intros key Hkey. apply not_elem_of_cons in Hkey as [Hne Hkey].
      rewrite Hf by done. by apply od_get_set_ne. }
  intros Hrun. by apply (Hgen (fields_all S) start self') in Hrun.
Qed.

Lemma form_init_frame_witness :
  instance paid_due_form_built
  = instance paid_due_form
  ∧ cleaned_data paid_due_form_built
    = cleaned_data paid_due_form
  ∧ has_errors paid_due_form_built
    = has_errors paid_due_form
  ∧ ∀ key, key ∉ names schema_paid_due →
      od_get key (fields paid_due_form_built) = od_get key (fields paid_due_form).
Proof.
  apply (form_init_frame untranslated paid_due_form _ paid_due_store schema_paid_due);
    [reflexivity | reflexivity | vm_compute; reflexivity].
Defined.

Lemma od_set_fresh {V} (key : string) (value : V) (d : list (string * V)) :
  key ∉ d.*1 → od_set key value d = (d ++ [(key, value)])%list.
Proof.
  induction d as [|[k v] d IH]; intros Hfresh; simpl; [done | ].
  rewrite fmap_cons in Hfresh. apply not_elem_of_cons in Hfresh as [Hne Hfresh].
  simpl in Hne. rewrite decide_False by done. by rewrite IH.
Qed.

Lemma init_loop_order (ugettext : string → string) (A : gmap string pyobj)
    (rows : list DynamicSchemaField) :
  ∀ form : DynamicForm,
    has_store (instance form) A →
    NoDup (name <$> rows) →
    Forall (fun key => key ∉ (fields form).*1) (name <$> rows) →
    Forall (fun row => mapped (field_type row)) rows →
    ∃ form', for_each (add_form_field ugettext) form (tuple_of A <$> rows) = Ok form'
      ∧ (fields form').*1 = ((fields form).*1 ++ (name <$> rows))%list.
Proof.
  induction rows as [|row rows IH]; intros form Hstore Hnodup Hfresh Hmapped.
  - exists form. split; [done | ]. by rewrite app_nil_r.
  - rewrite fmap_cons in Hnodup, Hfresh.
    apply NoDup_cons in Hnodup as [Hrow Hnodup].
    apply Forall_cons in Hfresh as [Hfresh0 Hfresh].
    apply Forall_cons in Hmapped as [[case Hcase] Hmapped].
    cbn [fmap list_fmap for_each].
    unfold add_form_field at 1. unfold tuple_of at 1.
    rewrite Hcase. cbn [bind].
    rewrite (get_extra_field_value_store (instance form) A) by done. cbn [bind].
    rewrite od_set_fresh by done.
    set (entry := forms.new _ _ _ _ _).
    destruct (IH (mkForm (instance form) (fields form ++ [(name row, entry)])
                    (cleaned_data form) (has_errors form)))
      as (form' & Hrun & Hkeys); [done | done | | done | ].
    { simpl. rewrite Forall_forall in Hfresh. apply Forall_forall. intros key Hkey.
      rewrite fmap_app. simpl. rewrite elem_of_app, list_elem_of_singleton.
      intros [? | ->]; [by apply (Hfresh key) | done]. }
    exists form'. split; [exact Hrun | ].
    rewrite Hkeys. simpl. rewrite fmap_app. simpl. by rewrite <- app_assoc.
Qed.

(** X12.  The dynamic form fields come after the fields the form already
    has, in the order of the schema rows -- provided the declared names are
    distinct and none of them is the name of a field the form already has. *)
Theorem form_field_order (ugettext : string → string) (self : DynamicForm)
    (A : gmap string pyobj) (S : DynamicSchema) :
  has_store (instance self) A → has_schema (instance self) S →
  NoDup (names S) →
  Forall (fun key => key ∉ (fields self).*1) (names S) →
  Forall (fun row => mapped (field_type row)) (fields_all S) →
  ∃ self', DynamicForm_init ugettext self = Ok self'
    ∧ (fields self').*1 = ((fields self).*1 ++ names S)%list.
Proof.
  intros Hstore Hschema Hnodup Hfresh Hmapped. unfold DynamicForm_init.
  rewrite (get_extra_fields_store (instance self) A S) by done. cbn [bind].
  by apply (init_loop_order ugettext A (fields_all S)
              (mkForm (instance self) (fields self) (cleaned_data self) (has_errors self))).
Qed.

Lemma form_field_order_witness :
  ∃ self', DynamicForm_init untranslated paid_due_form = Ok self'
    ∧ (fields self').*1 = ((fields paid_due_form).*1 ++ names schema_paid_due)%list.
Proof.
  apply (form_field_order untranslated paid_due_form paid_due_store schema_paid_due);
    [reflexivity | reflexivity | by_evaluation | by_evaluation | by_evaluation].
Defined.

(** ** Field-type choices *)

Lemma limit_choices_subset (setting : option (list string))
    (init_choices : list (string * string)) (choice : string * string) :
  choice ∈ limit_choices setting init_choices → choice ∈ init_choices.
Proof.
  destruct setting as [[|k0 ks]|]; simpl; try done.
  rewrite list_elem_of_filter. by intros [_ ?].
Qed.

(** X15.  [limit_choices] only ever takes choices away and keeps their
    order.  With a non-empty setting the choices left are those whose key
    the setting lists; with the setting absent or empty every choice stays. *)
Theorem limit_choices_keeps (setting : option (list string))
    (init_choices : list (string * string)) :
  limit_choices setting init_choices `sublist_of` init_choices
  ∧ ∀ k v, (k, v) ∈ limit_choices setting init_choices
           ↔ (k, v) ∈ init_choices ∧ (default [] setting = [] ∨ k ∈ default [] setting).
Proof.
  destruct setting as [[|k0 ks]|]; simpl.
  - split; [done | ]. intros k v. split; [by eauto | by intros [? _]].
  - split; [apply sublist_filter | ]. intros k v.
    rewrite list_elem_of_filter. split.
    + intros [Hk Hin]. split; [done | by right].
    + intros [Hin [?|Hk]]; [done | by split].
  - split; [done | ]. intros k v. split; [by eauto | by intros [? _]].
Qed.

(** X16.  Limiting twice with the same setting is limiting once. *)
Theorem limit_choices_idempotent (setting : option (list string))
    (init_choices : list (string * string)) :
  limit_choices setting (limit_choices setting init_choices)
  = limit_choices setting init_choices.
Proof.
  destruct setting as [[|k0 ks]|]; simpl; [done | | done].
  induction init_choices as [|[k v] l IH]; [done | ].
  rewrite filter_cons. destruct (decide (k ∈ k0 :: ks)) as [Hk|Hk].
  - rewrite filter_cons, decide_True by done. by rewrite IH.
  - exact IH.
Qed.

Lemma offered_type_mapped (setting : option (list string)) (key : string) :
  key ∈ (limit_choices setting FIELD_TYPES).*1 → mapped key.
Proof.
  intros Hkey. apply list_elem_of_fmap in Hkey as ([k v] & -> & Hin).
  apply limit_choices_subset in Hin.
  unfold FIELD_TYPES in Hin.
  repeat (apply elem_of_cons in Hin as [[= -> ->]|Hin]; [by eexists | ]).
  by apply elem_of_nil in Hin.
Qed.

(** X13.  The form can be built for every field type that is on offer:
    whatever the setting, when the types of all rows are among the choices
    [limit_choices] leaves of [FIELD_TYPES], [DynamicForm.__init__] raises
    nothing. *)
Theorem form_init_offered_types (ugettext : string → string) (self : DynamicForm)
    (A : gmap string pyobj) (S : DynamicSchema) (setting : option (list string)) :
  has_store (instance self) A → has_schema (instance self) S →
  Forall (fun row => field_type row ∈ (limit_choices setting FIELD_TYPES).*1) (fields_all S) →
  ∃ self', DynamicForm_init ugettext self = Ok self'.
Proof.
  intros Hstore Hschema Hoffered. unfold DynamicForm_init.
  rewrite (get_extra_fields_store (instance self) A S) by done. cbn [bind].
  rewrite Forall_forall in Hoffered.
  destruct (init_loop ugettext A (fields_all S)
              (mkForm (instance self) (fields self) (cleaned_data self) (has_errors self)))
    as (fields' & Hrun & _); [done | | by eauto].
  intros row Hrow. apply (offered_type_mapped setting). by apply Hoffered.
Qed.

Lemma form_init_offered_types_witness :
  ∃ self', DynamicForm_init untranslated paid_due_form = Ok self'.
Proof.
  apply (form_init_offered_types untranslated paid_due_form paid_due_store
           schema_paid_due (Some ["BooleanField"; "TextField"]));
    [reflexivity | reflexivity | by_evaluation].
Defined.

(** X14.  Saving a form and synchronising again: every declared name is a
    key of the store, with the cleaned value when the form provided one and
    [None] otherwise, and there is no other key. *)
Theorem form_save_then_sync (self : DynamicForm) (A : gmap string pyobj) (S : DynamicSchema) :
  has_errors self = false →
  has_store (instance self) A → has_schema (instance self) S →
  ∃ A', (do m <- DynamicForm_save self; _sync_with_schema m)
        = Ok (with_store (instance self) A')
    ∧ ∀ key, A' !! key =
             if decide (key ∈ names S) then Some (default PNone (cleaned_data self !! key))
             else None.
Proof.
  intros Herr Hstore Hschema.
  destruct (save_result self A S Herr Hstore Hschema) as (A1 & Hsave & Hlook1).
  rewrite Hsave. cbn [bind].
  destruct (sync_result (with_store (instance self) A1) A1 S) as (A2 & Hsync & Hlook2).
  { apply has_store_with_store. }
  { by apply has_schema_with_store. }
  rewrite Hsync, with_store_with_store. exists A2. split; [done | ].
  intros key. rewrite Hlook2, Hlook1. by destruct (decide (key ∈ names S)).
Qed.

Lemma form_save_then_sync_witness :
  ∃ A', (do m <- DynamicForm_save form_a_only; _sync_with_schema m)
        = Ok (with_store (instance form_a_only) A')
    ∧ ∀ key, A' !! key =
             if decide (key ∈ names schema_ab)
             then Some (default PNone (cleaned_data form_a_only !! key))
             else None.
Proof. apply (form_save_then_sync form_a_only ab_store schema_ab); reflexivity. Defined.

Example form_save_then_sync_scenario :
  (do m <- DynamicForm_save form_a_only; _sync_with_schema m)
  = Ok (with_store ab_order {[ "a" := PInt 5; "b" := PNone ]}).
Proof. vm_compute. reflexivity. Qed.

(** ** More on the schema table *)

Lemma filter_no_match {A} (P : A → Prop) `{∀ x, Decision (P x)} (l : list A) :
  (∀ x, x ∈ l → ¬ P x) → filter P l = [].
Proof.
  induction l as [|x l IH]; intros Hno; [done | ].
  rewrite filter_cons, decide_False by (apply Hno; left).
  apply IH. intros y Hy. apply Hno. by right.
Qed.

Lemma filter_all_match {A} (P : A → Prop) `{∀ x, Decision (P x)} (l : list A) :
  (∀ x, x ∈ l → P x) → filter P l = l.
Proof.
  induction l as [|x l IH]; intros Hall; [done | ].
  rewrite filter_cons, decide_True by (apply Hall; left).
  f_equal. apply IH. intros y Hy. apply Hall. by right.
Qed.

Lemma NoDup_fmap_same {A B} (f : A → B) (l : list A) (x y : A) :
  NoDup (f <$> l) → x ∈ l → y ∈ l → f x = f y → x = y.
Proof.
  induction l as [|z l IH]; intros Hnodup Hx Hy Heq; [by apply elem_of_nil in Hx | ].
  rewrite fmap_cons in Hnodup. apply NoDup_cons in Hnodup as [Hz Hnodup].
  apply elem_of_cons in Hx as [->|Hx]; apply elem_of_cons in Hy as [->|Hy].
  - done.
  - destruct Hz. rewrite Heq. by apply list_elem_of_fmap_2.
  - destruct Hz. rewrite <- Heq. by apply list_elem_of_fmap_2.
  - by apply IH.
Qed.

Lemma max_bound (l : list Z) (k : Z) : k ∈ l → k ≤ foldr Z.max 0 l.
Proof.
  induction l as [|z l IH]; intros Hk; [by apply elem_of_nil in Hk | ].
  simpl. apply elem_of_cons in Hk as [->|Hk]; [lia | ].
  specialize (IH Hk). lia.
Qed.

Lemma next_id_fresh (db : table) (row : DynamicSchemaField) :
  row ∈ db → id row ≠ Some (next_id db).
Proof.
  intros Hrow Hid. unfold next_id in Hid.
  assert (Hin : 1 + foldr Z.max 0 (omap id db) ∈ omap id db).
  { apply list_elem_of_omap. by exists row. }
  apply max_bound in Hin. lia.
Qed.

(** [add_field] evaluated. *)
Lemma add_field_eval (self : DynamicSchema) (name_ type : string) (db : table) :
  add_field self name_ type db
  = if unique_together_taken (mkField None (pk self) name_ None type true) db
    then (Raise IntegrityError, db)
    else (Ok (mkField (Some (next_id db)) (pk self) name_ None type true),
          (db ++ [mkField (Some (next_id db)) (pk self) name_ None type true])%list).
Proof.
  unfold add_field, DynamicSchemaField_save. cbn [DynamicSchemaField_clean id].
  unfold Model_save. by destruct (unique_together_taken _ db).
Qed.

(** X17.  A name can be added to a schema once: after [add_field] has
    succeeded, [add_field] with the same name on the same schema raises
    [IntegrityError], whatever the field type, and leaves the table alone. *)
Theorem add_field_twice (self : DynamicSchema) (name_ type type' : string)
    (db db1 : table) (row : DynamicSchemaField) :
  add_field self name_ type db = (Ok row, db1) →
  add_field self name_ type' db1 = (Raise IntegrityError, db1).
Proof.
  rewrite !add_field_eval.
  destruct (unique_together_taken _ db); [done | ].
  intros [= <- <-]. unfold unique_together_taken.
  rewrite bool_decide_eq_true_2; [done | ].
  apply Exists_exists. eexists. split; [apply elem_of_app; right; left | ].
  by simpl.
Qed.

Lemma add_field_twice_witness :
  add_field schema_one "ok_name" "CharField"
    [ mkField (Some 1) 1 "ok_name" None "IntegerField" true ]
  = (Raise IntegrityError, [ mkField (Some 1) 1 "ok_name" None "IntegerField" true ]).
Proof.
  apply (add_field_twice schema_one "ok_name" "IntegerField" "CharField" []
           _ (mkField (Some 1) 1 "ok_name" None "IntegerField" true)).
  reflexivity.
Defined.

(** X18.  Adding a field and removing it again gives back the table, when
    the schema did not have a field of that name before. *)
Theorem add_then_remove (self : DynamicSchema) (name_ type : string) (db : table) :
  Forall (fun row => schema_id row = pk self → name row ≠ name_) db →
  remove_field self name_ (add_field self name_ type db).2 = (Ok tt, db).
Proof.
  intros Hfree. rewrite Forall_forall in Hfree.
  rewrite (add_field_any_name self name_ type db Hfree).
  unfold remove_field. cbn [snd]. f_equal.
  rewrite filter_app, filter_all_match.
  - rewrite filter_cons, decide_False by (intros H; by apply H).
    by rewrite filter_nil, app_nil_r.
  - intros row Hrow [Hs Hn]. by apply (Hfree row).
Qed.

Lemma add_then_remove_witness :
  remove_field schema_one "c" (add_field schema_one "c" "EmailField" table_ab).2
  = (Ok tt, table_ab).
Proof. apply add_then_remove. by_evaluation. Defined.

(** X25.  Removing a field twice is removing it once. *)
Theorem remove_field_again (self : DynamicSchema) (name_ : string) (db : table) :
  remove_field self name_ (remove_field self name_ db).2
  = (Ok tt, (remove_field self name_ db).2).
Proof.
  unfold remove_field. cbn [snd]. f_equal.
  apply filter_all_match. intros row Hrow.
  by apply list_elem_of_filter in Hrow as [? _].
Qed.

Lemma Model_save_keys (self : DynamicSchemaField) (db : table) :
  table_keys db → table_keys (Model_save self db).2.
Proof.
  intros (Hids & Hpk & Hpairs). unfold Model_save, unique_together_taken.
  case_bool_decide as Htaken; [done | ].
  rewrite Exists_exists in Htaken.
  assert (Hfresh_pair : (∀ row, row ∈ db → id row ≠ id self) →
            (schema_id self, name self)
              ∉ (fun row => (schema_id row, name row)) <$> db).
  { intros Hother Hin. apply list_elem_of_fmap in Hin as (row & [= Hs Hn] & Hrow).
    apply Htaken. exists row. split; [done | ]. split; [by apply Hother | done]. }
  destruct (id self) as [key|] eqn:Hid.
  - case_bool_decide as Hstored; cbn [snd].
    + set (f := fun row => if decide (id row = Some key) then self else row).
      assert (Hidf : ∀ row, id (f row) = id row).
      { intros row. unfold f. destruct (decide _) as [->|]; done. }
      split; [ | split].
      * apply Forall_fmap. eapply Forall_impl; [exact Hids | ].
        intros row Hrow. simpl. by rewrite Hidf.
      * rewrite <- list_fmap_compose.
        by rewrite (list_fmap_ext (id ∘ f) id db) by (intros; apply Hidf).
      * rewrite <- list_fmap_compose.
        apply NoDup_fmap_2_strong; [ | by apply NoDup_fmap_1 in Hpk].
        intros x y Hx Hy. unfold f. simpl.
        destruct (decide (id x = Some key)) as [Hkx|Hkx],
                 (decide (id y = Some key)) as [Hky|Hky].
        -- intros _. apply (NoDup_fmap_same id db); [done | done | done | congruence].
        -- intros [= Hs Hn]. destruct Htaken. exists y.
           split; [done | ]. split; [congruence | done].
        -- intros [= Hs Hn]. destruct Htaken. exists x.
           split; [done | ]. split; [congruence | done].
        -- intros Heq.
           by apply (NoDup_fmap_same (fun row => (schema_id row, name row)) db).
    + rewrite Exists_exists in Hstored.
      assert (Hother : ∀ row, row ∈ db → id row ≠ Some key)
        by (intros row Hrow Hk; apply Hstored; eauto).
      split; [ | split].
      * apply Forall_app. split; [done | ]. apply Forall_singleton. by rewrite Hid.
      * rewrite fmap_app. apply NoDup_app. split; [done | ].
        split; [ | apply NoDup_singleton].
        intros o Ho. simpl. rewrite list_elem_of_singleton, Hid. intros ->.
        apply list_elem_of_fmap in Ho as (row & Hk & Hrow). by apply (Hother row).
      * rewrite fmap_app. apply NoDup_app. split; [done | ].
        split; [ | apply NoDup_singleton].
        intros p Hp. simpl. rewrite list_elem_of_singleton. intros ->.
        by apply Hfresh_pair.
  - cbn [snd].
    assert (Hother : ∀ row, row ∈ db → id row ≠ None).
    { intros row Hrow Hnone. rewrite Forall_forall in Hids.
      destruct (Hids row Hrow) as [k Hk]. congruence. }
    split; [ | split].
    * apply Forall_app. split; [done | ]. by apply Forall_singleton.
    * rewrite fmap_app. apply NoDup_app. split; [done | ].
      split; [ | apply NoDup_singleton].
      intros o Ho. simpl. rewrite list_elem_of_singleton. intros ->.
      apply list_elem_of_fmap in Ho as (row & Hk & Hrow).
      by apply (next_id_fresh db row).
    * rewrite fmap_app. apply NoDup_app. split; [done | ].
      split; [ | apply NoDup_singleton].
      intros p Hp. simpl. rewrite list_elem_of_singleton. intros ->.
      by apply Hfresh_pair.
Qed.

(** X19.  The operations on the field table keep its keys: after [save],
    [add_field] or [remove_field] -- whether the call returns or raises --
    every row still has a primary key, no primary key occurs twice, and no
    schema has two fields of one name. *)
Theorem table_keys_kept (db : table) :
  table_keys db →
  (∀ self, table_keys (DynamicSchemaField_save self db).2)
  ∧ (∀ schema name_ type, table_keys (add_field schema name_ type db).2)
  ∧ (∀ schema name_, table_keys (remove_field schema name_ db).2).
Proof.
  intros Hkeys.
  assert (Hsave : ∀ self, table_keys (DynamicSchemaField_save self db).2).
  { intros self. unfold DynamicSchemaField_save.
    destruct (DynamicSchemaField_clean self db); [by apply Model_save_keys | done]. }
  split; [exact Hsave | ]. split; [intros; apply Hsave | ].
  intros schema name_. destruct Hkeys as (Hids & Hpk & Hpairs).
  unfold remove_field. cbn [snd]. split; [ | split].
  - apply Forall_forall. intros row [_ Hrow]%list_elem_of_filter.
    rewrite Forall_forall in Hids. by apply Hids.
  - eapply sublist_NoDup; [exact Hpk | ]. apply fmap_sublist, sublist_filter.
  - eapply sublist_NoDup; [exact Hpairs | ]. apply fmap_sublist, sublist_filter.
Qed.

Lemma table_keys_kept_witness :
  (∀ self, table_keys (DynamicSchemaField_save self table_ab).2)
  ∧ (∀ schema name_ type, table_keys (add_field schema name_ type table_ab).2)
  ∧ (∀ schema name_, table_keys (remove_field schema name_ table_ab).2).
Proof.
  apply table_keys_kept. repeat split; by_evaluation.
Defined.

(** Witnesses of [save_frozen_refused] and [save_verbose_name_only]. *)
Lemma save_frozen_refused_witness :
  DynamicSchemaField_save (mkField (Some 1) 1 "priority" None "CharField" true) [priority_row]
  = (Raise (ValidationError "%s value cannot be modified"), [priority_row]).
Proof.
  apply (save_frozen_refused _ priority_row 1);
    [reflexivity | discriminate | reflexivity | right; left; discriminate].
Defined.

Lemma save_verbose_name_only_witness :
  DynamicSchemaField_save
    (mkField (Some 1) 1 "priority" (Some "Priority") "IntegerField" true) [priority_row]
  = (Ok (mkField (Some 1) 1 "priority" (Some "Priority") "IntegerField" true),
     (fun row => if decide (id row = Some 1)
                 then mkField (Some 1) 1 "priority" (Some "Priority") "IntegerField" true
                 else row) <$> [priority_row]).
Proof.
  apply (save_verbose_name_only priority_row 1 [priority_row] (Some "Priority"));
    [reflexivity | discriminate | reflexivity].
Defined.

(** X22.  [save] cannot create a row under a primary key of the caller's
    choice: for an object with a non-zero [id], within the range of the
    integers of the database, that no stored row has, [clean] looks the row
    up, [save] raises [DoesNotExist] and the table is left alone. *)
Theorem save_unknown_id (self : DynamicSchemaField) (key : Z) (db : table) :
  id self = Some key → key ≠ 0 →
  - 2 ^ 63 ≤ key < 2 ^ 63 →
  Forall (fun row => id row ≠ Some key) db →
  DynamicSchemaField_save self db = (Raise DoesNotExist, db).
Proof.
  intros Hid Hkey _ Hnone. rewrite Forall_forall in Hnone.
  unfold DynamicSchemaField_save, DynamicSchemaField_clean.
  rewrite Hid. cbn [truthy]. rewrite (proj2 (Z.eqb_neq key 0) Hkey). cbn [negb].
  unfold objects_get. by rewrite filter_no_match.
Qed.

Lemma save_unknown_id_witness :
  DynamicSchemaField_save (mkField (Some 9) 1 "c" None "CharField" true) table_ab
  = (Raise DoesNotExist, table_ab).
Proof.
  apply (save_unknown_id _ 9); [reflexivity | discriminate | lia | by_evaluation].
Defined.

(** ** Schema changes and the next synchronisation *)

Lemma names_from_table (key model_ : Z) (type_value_ : string) (db : table) (k : string) :
  k ∈ names (schema_from_table key model_ type_value_ db)
  ↔ ∃ row, row ∈ db ∧ schema_id row = key ∧ name row = k.
Proof.
  unfold names, schema_from_table. cbn [fields_all].
  rewrite list_elem_of_fmap. split.
  - intros (row & -> & [Hs Hrow]%list_elem_of_filter). eauto.
  - intros (row & Hrow & Hs & <-). exists row. split; [done | ].
    by apply list_elem_of_filter.
Qed.

(** X23.  A field added to the schema reaches an instance at its next
    synchronisation: when the instance reads its schema from the table that
    [add_field] left, the new name is a key of the store afterwards -- with
    [None], or with the value the store already had under that name -- and
    every other key is treated as the old schema would have it. *)
Theorem add_field_then_sync (schema : DynamicSchema) (name_ type : string) (db : table)
    (self : DynamicModel) (A : gmap string pyobj) :
  Forall (fun row => schema_id row = pk schema → name row ≠ name_) db →
  has_store self A →
  has_schema self
    (schema_from_table (pk schema) (model schema) (type_value schema)
       (add_field schema name_ type db).2) →
  ∃ A', _sync_with_schema self = Ok (with_store self A')
    ∧ A' !! name_ = Some (default PNone (A !! name_))
    ∧ ∀ k, k ≠ name_ →
        A' !! k =
        if decide (k ∈ names (schema_from_table (pk schema) (model schema)
                               (type_value schema) db))
        then Some (default PNone (A !! k)) else None.
Proof.
  intros Hfree Hstore Hschema. rewrite Forall_forall in Hfree.
  rewrite (add_field_any_name schema name_ type db Hfree) in Hschema. cbn [snd] in Hschema.
  destruct (sync_result self A _ Hstore Hschema) as (A' & Hsync & Hlook).
  exists A'. split; [done | ]. split.
  - rewrite Hlook, decide_True; [done | ].
    apply names_from_table. eexists. split; [apply elem_of_app; right; left | done].
  - intros k Hk. rewrite Hlook.
    destruct (decide (k ∈ names (schema_from_table _ _ _ db))) as [Hin|Hin].
    + rewrite decide_True; [done | ].
      apply names_from_table in Hin as (row & Hrow & Hs & Hn).
      apply names_from_table. exists row. split; [ | done].
      apply elem_of_app. by left.
    + rewrite decide_False; [done | ]. intros Hin'. apply Hin.
      apply names_from_table in Hin' as (row & Hrow & Hs & Hn).
      apply names_from_table. exists row. split; [ | done].
      apply elem_of_app in Hrow as [?|Hrow]; [done | ].
      apply list_elem_of_singleton in Hrow. subst row. by simpl in Hn.
Qed.

Lemma add_field_then_sync_witness :
  ∃ A', _sync_with_schema
          (mkModel ["id"] schema_one
             {[ "extra_fields" := PDict ab_store;
                "_schema" := PSchema (schema_from_table 1 7 ""
                                        (add_field schema_one "c" "EmailField" table_ab).2) ]})
        = Ok (with_store
                (mkModel ["id"] schema_one
                   {[ "extra_fields" := PDict ab_store;
                      "_schema" := PSchema (schema_from_table 1 7 ""
                                              (add_field schema_one "c" "EmailField" table_ab).2) ]})
                A')
    ∧ A' !! "c" = Some (default PNone (ab_store !! "c"))
    ∧ ∀ k, k ≠ "c" →
        A' !! k =
        if decide (k ∈ names (schema_from_table (pk schema_one) (model schema_one)
                               (type_value schema_one) table_ab))
        then Some (default PNone (ab_store !! k)) else None.
Proof.
  apply (add_field_then_sync schema_one "c" "EmailField" table_ab);
    [by_evaluation | reflexivity | reflexivity].
Defined.

(** X24.  A field removed from the schema leaves an instance at its next
    synchronisation: when the instance reads its schema from the table that
    [remove_field] left, the store has no key of that name afterwards, and
    every other key is treated as the old schema would have it. *)
Theorem remove_field_then_sync (schema : DynamicSchema) (name_ : string) (db : table)
    (self : DynamicModel) (A : gmap string pyobj) :
  has_store self A →
  has_schema self
    (schema_from_table (pk schema) (model schema) (type_value schema)
       (remove_field schema name_ db).2) →
  ∃ A', _sync_with_schema self = Ok (with_store self A')
    ∧ A' !! name_ = None
    ∧ ∀ k, k ≠ name_ →
        A' !! k =
        if decide (k ∈ names (schema_from_table (pk schema) (model schema)
                               (type_value schema) db))
        then Some (default PNone (A !! k)) else None.
Proof.
  intros Hstore Hschema.
  destruct (sync_result self A _ Hstore Hschema) as (A' & Hsync & Hlook).
  exists A'. split; [done | ].
  assert (Hnames : ∀ k,
    k ∈ names (schema_from_table (pk schema) (model schema) (type_value schema)
                 (remove_field schema name_ db).2)
    ↔ k ≠ name_
      ∧ k ∈ names (schema_from_table (pk schema) (model schema) (type_value schema) db)).
  { intros k. rewrite !names_from_table. unfold remove_field. cbn [snd]. split.
    - intros (row & [Hkeep Hrow]%list_elem_of_filter & Hs & Hn). split.
      + intros ->. by apply Hkeep.
      + eauto.
    - intros (Hk & row & Hrow & Hs & Hn). exists row. split; [ | done].
      apply list_elem_of_filter. split; [ | done]. intros [_ Hn']. congruence. }
  split.
  - rewrite Hlook, decide_False; [done | ]. rewrite Hnames. by intros [? _].
  - intros k Hk. rewrite Hlook.
    destruct (decide (k ∈ names (schema_from_table _ _ _ db))) as [Hin|Hin].
    + rewrite decide_True; [done | ]. by apply Hnames.
    + rewrite decide_False; [done | ]. rewrite Hnames. by intros [_ ?].
Qed.

Lemma remove_field_then_sync_witness :
  ∃ A', _sync_with_schema
          (mkModel ["id"] schema_one
             {[ "extra_fields" := PDict ab_store;
                "_schema" := PSchema (schema_from_table 1 7 ""
                                        (remove_field schema_one "a" table_ab).2) ]})
        = Ok (with_store
                (mkModel ["id"] schema_one
                   {[ "extra_fields" := PDict ab_store;
                      "_schema" := PSchema (schema_from_table 1 7 ""
                                              (remove_field schema_one "a" table_ab).2) ]})
                A')
    ∧ A' !! "a" = None
    ∧ ∀ k, k ≠ "a" →
        A' !! k =
        if decide (k ∈ names (schema_from_table (pk schema_one) (model schema_one)
                               (type_value schema_one) table_ab))
        then Some (default PNone (ab_store !! k)) else None.
Proof.
  apply (remove_field_then_sync schema_one "a" table_ab); reflexivity.
Defined.

Example remove_field_then_sync_scenario :
  _sync_with_schema
    (mkModel ["id"] schema_one
       {[ "extra_fields" := PDict ab_store;
          "_schema" := PSchema (schema_from_table 1 7 ""
                                  (remove_field schema_one "a" table_ab).2) ]})
  = Ok (mkModel ["id"] schema_one
          {[ "extra_fields" := PDict {[ "b" := PInt 2 ]};
             "_schema" := PSchema (schema_from_table 1 7 ""
                                     (remove_field schema_one "a" table_ab).2) ]}).
Proof. vm_compute. reflexivity. Qed.

(** ** Looking a schema up *)

Lemma matching_rows_at_most_one (schemas : list SchemaRow) (model_ : Z) (type_value_ : string) :
  NoDup ((fun row => (row_model row, row_type_value row)) <$> schemas) →
  (length (filter (fun row => row_type_value row = type_value_ ∧ row_model row = model_)
             schemas) ≤ 1)%nat.
Proof.
  induction schemas as [|x l IH]; intros Hnodup; [simpl; lia | ].
  rewrite fmap_cons in Hnodup. apply NoDup_cons in Hnodup as [Hx Hnodup].
  rewrite filter_cons. destruct (decide _) as [[Ht Hm]|_]; [ | by apply IH].
  rewrite filter_no_match; [simpl; lia | ].
  intros y Hy [Ht' Hm']. apply Hx.
  apply list_elem_of_fmap. exists y. split; [ | done]. congruence.
Qed.

(** X26.  Schema lookup is total and settles on one schema: on a schema table
    with unique keys, [get_for_model] returns a schema of the model and type
    value asked for, keeps every row and the uniqueness of the keys, and
    asked again returns the same schema without touching the table. *)
Theorem get_for_model_unique (content_type : string → Z) (model_class type_value_ : string)
    (schemas : list SchemaRow) :
  schema_keys schemas →
  ∃ row schemas',
    get_for_model content_type model_class type_value_ schemas = (Ok row, schemas')
    ∧ row ∈ schemas'
    ∧ row_model row = content_type model_class ∧ row_type_value row = type_value_
    ∧ schemas `prefix_of` schemas'
    ∧ schema_keys schemas'
    ∧ get_for_model content_type model_class type_value_ schemas' = (Ok row, schemas').
Proof.
  intros [Hpk Hpairs]. unfold get_for_model, get_or_create.
  pose proof (matching_rows_at_most_one schemas (content_type model_class) type_value_ Hpairs)
    as Hone.
  destruct (filter _ schemas) as [|row [|row' rest]] eqn:Hfilter; [ | | simpl in Hone; lia].
  - set (row := mkSchemaRow _ _ _).
    exists row, (schemas ++ [row])%list. split; [done | ].
    split; [apply elem_of_app; right; left | ].
    split; [done | ]. split; [done | ]. split; [by exists [row] | ].
    split.
    + split.
      * rewrite fmap_app. apply NoDup_app. split; [done | ].
        split; [ | apply NoDup_singleton].
        intros k Hk. simpl. rewrite list_elem_of_singleton. intros ->.
        apply max_bound in Hk. lia.
      * rewrite fmap_app. apply NoDup_app. split; [done | ].
        split; [ | apply NoDup_singleton].
        intros p Hp. simpl. rewrite list_elem_of_singleton. intros ->.
        apply list_elem_of_fmap in Hp as (row' & [= Hm Ht] & Hrow').
        assert (Hin : row' ∈ filter (fun row => row_type_value row = type_value_
                                   ∧ row_model row = content_type model_class) schemas)
          by (apply list_elem_of_filter; split; [split | ]; done).
        rewrite Hfilter in Hin. by apply elem_of_nil in Hin.
    + rewrite filter_app, Hfilter, filter_cons, decide_True by done.
      by rewrite filter_nil.
  - assert (Hin : row ∈ filter (fun row => row_type_value row = type_value_
                               ∧ row_model row = content_type model_class) schemas)
      by (rewrite Hfilter; left).
    apply list_elem_of_filter in Hin as [[Ht Hm] Hrow].
    exists row, schemas. split; [done | ]. split; [done | ].
    split; [done | ]. split; [done | ]. split; [done | ].
    split; [by split | ]. by rewrite Hfilter.
Qed.

Lemma get_for_model_unique_witness :
  ∃ row schemas',
    get_for_model content_type_example "Order" "" [ mkSchemaRow 1 8 "" ] = (Ok row, schemas')
    ∧ row ∈ schemas'
    ∧ row_model row = content_type_example "Order" ∧ row_type_value row = ""
    ∧ [ mkSchemaRow 1 8 "" ] `prefix_of` schemas'
    ∧ schema_keys schemas'
    ∧ get_for_model content_type_example "Order" "" schemas' = (Ok row, schemas').
Proof.
  apply get_for_model_unique. split; by_evaluation.
Defined.

Example get_for_model_scenario :
  get_for_model content_type_example "Order" "" [ mkSchemaRow 1 8 "" ]
  = (Ok (mkSchemaRow 2 7 ""), [ mkSchemaRow 1 8 ""; mkSchemaRow 2 7 "" ]).
Proof. vm_compute. reflexivity. Qed.
